(** * Verification of the telemetry property matcher

    Shallow embedding of
    - [internal/coreinternal/processor/filtermatcher/filtermatcher.go]
      ([NewMatcher], [PropertiesMatcher.Match]), and
    - [pkg/ottl/ottlfuncs/func_is_match.go] ([IsMatch]).

    The packages [filterset] and [filterconfig], and the type
    [AttributesMatcher] with its constructor and its [Match] method, are
    used by [filtermatcher.go] and declared elsewhere in the repository;
    they are modelled from the specification and marked as such.  Go's
    [regexp] package is an external library: it enters as an interface
    ([regexp.Engine]), and a small concrete engine is supplied to evaluate
    the worked examples. *)

From Stdlib Require Import ZArith Ascii String List Bool Lia Floats Uint63.
From stdpp Require Import base option list strings gmap.

Import ListNotations.
Local Open Scope string_scope.
Local Open Scope list_scope.

(* ===================================================================== *)
(** ** Go values of type [error] *)
(* ===================================================================== *)

(** [errors.New msg], [fmt.Errorf (msg ++ ": %w") cause], and the
    specification's [CompilationError], which carries the offending pattern
    and the underlying syntax error. *)
Inductive error : Type :=
| ErrNew (msg : string)
| ErrWrap (msg : string) (cause : error)
| CompilationError (pattern : string) (cause : error).

(** [errors.Unwrap]. *)
Definition Unwrap (e : error) : option error :=
  match e with
  | ErrNew _ => None
  | ErrWrap _ cause => Some cause
  | CompilationError _ cause => Some cause
  end.

(** A function that the specification types as [-> T | Error]. *)
Inductive result (A : Type) : Type :=
| OK (a : A)
| Err (e : error).
Arguments OK {A} a.
Arguments Err {A} e.

Definition is_err {A} (r : result A) : bool :=
  match r with OK _ => false | Err _ => true end.

#[export] Instance result_ret : MRet result := fun _ a => OK a.
#[export] Instance result_bind : MBind result := fun _ _ f r =>
  match r with OK a => f a | Err e => Err e end.

(* ===================================================================== *)
(** ** The regular-expression library, as an interface *)
(* ===================================================================== *)

(** What the Go programs use of package [regexp]: [regexp.Compile] and
    the method [MatchString] of a compiled [Regexp], the unanchored search. *)
Module regexp.
Class Engine : Type := {
  Regexp : Type;
  Compile : string -> result Regexp;
  MatchString : Regexp -> string -> bool
}.
End regexp.

(* ===================================================================== *)
(** ** A concrete engine for a fragment of the RE2 syntax *)
(* ===================================================================== *)

Module MiniRE2.

(** The fragment: literals, escaped punctuation, [.], [^], [$], groups,
    alternation and the greedy operators [*], [+], [?], over texts of
    one-byte characters.  Character classes, counted and lazy repetition
    and the other escapes are outside it, and [compile] reports them as
    errors. *)

(** Abstract syntax. [Bot] and [Eot] are the empty-width assertions [^]
    and [$] (beginning and end of text, no multi-line flag). *)
Inductive re : Type :=
| Eps
| Lit (c : ascii)
| AnyNotNL
| Cat (a b : re)
| Alt (a b : re)
| Star (a : re)
| Bot
| Eot.

Definition Plus (a : re) : re := Cat a (Star a).
Definition Quest (a : re) : re := Alt a Eps.

Definition is_repeat (c : ascii) : bool :=
  (Ascii.eqb c "*" || Ascii.eqb c "+" || Ascii.eqb c "?")%char.

(** Characters that this fragment does not take as literals. *)
Definition is_meta (c : ascii) : bool :=
  (is_repeat c || Ascii.eqb c "(" || Ascii.eqb c ")" || Ascii.eqb c "|"
   || Ascii.eqb c "[" || Ascii.eqb c "]" || Ascii.eqb c "{" || Ascii.eqb c "}"
   || Ascii.eqb c "\" || Ascii.eqb c "." || Ascii.eqb c "^" || Ascii.eqb c "$")%char.

Definition parser : Type := list ascii -> option (re * list ascii).

(** One atom: a literal, an escaped punctuation character, [.], [^], [$],
    or a parenthesised alternation parsed by [alt]. *)
Definition parseAtom (alt : parser) : parser := fun s =>
  match s with
  | [] => None
  | c :: t =>
      if Ascii.eqb c "(" then
        match alt t with
        | Some (r, c' :: t') => if Ascii.eqb c' ")" then Some (r, t') else None
        | _ => None
        end
      else if Ascii.eqb c "." then Some (AnyNotNL, t)
      else if Ascii.eqb c "^" then Some (Bot, t)
      else if Ascii.eqb c "$" then Some (Eot, t)
      else if Ascii.eqb c "\" then
        match t with
        | e :: t' => if is_meta e then Some (Lit e, t') else None
        | [] => None
        end
      else if is_meta c then None
      else Some (Lit c, t)
  end.

(** An atom with at most one repetition operator; a second operator in a
    row is outside the fragment. *)
Definition parseRepeat (alt : parser) : parser := fun s =>
  match parseAtom alt s with
  | None => None
  | Some (r, []) => Some (r, [])
  | Some (r, c :: t) =>
      if is_repeat c then
        match t with
        | c2 :: _ => if is_repeat c2 then None else
                       Some (if Ascii.eqb c "*" then Star r
                             else if Ascii.eqb c "+" then Plus r else Quest r, t)
        | [] => Some (if Ascii.eqb c "*" then Star r
                      else if Ascii.eqb c "+" then Plus r else Quest r, t)
        end
      else Some (r, c :: t)
  end.

(** A concatenation: items up to the end, a [|] or a [)]. *)
Fixpoint parseCat (fuel : nat) (alt : parser) (s : list ascii)
  : option (re * list ascii) :=
  match s with
  | [] => Some (Eps, [])
  | c :: _ =>
      if (Ascii.eqb c "|" || Ascii.eqb c ")")%char then Some (Eps, s)
      else
        match fuel with
        | O => None
        | S fuel' =>
            match parseRepeat alt s with
            | None => None
            | Some (r, rest) =>
                match parseCat fuel' alt rest with
                | None => None
                | Some (Eps, rest') => Some (r, rest')
                | Some (r', rest') => Some (Cat r r', rest')
                end
            end
        end
  end.

Fixpoint parseAlt (fuel : nat) (s : list ascii) : option (re * list ascii) :=
  match fuel with
  | O => None
  | S fuel' =>
      match parseCat fuel' (parseAlt fuel') s with
      | Some (r, c :: t) =>
          if Ascii.eqb c "|" then
            match parseAlt fuel' t with
            | Some (r', rest) => Some (Alt r r', rest)
            | None => None
            end
          else Some (r, c :: t)
      | other => other
      end
  end.

Definition compile (pattern : string) : result re :=
  let s := list_ascii_of_string pattern in
  match parseAlt (2 * List.length s + 2) s with
  | Some (r, []) => OK r
  | _ => Err (ErrNew ("error parsing regexp: " ++ pattern))
  end.

(** [rems r n s]: the suffixes of [s] left after [r] matched a prefix of
    [s], where [s] is itself a suffix of a text of List.length [n]. *)
Fixpoint starRems (step : list ascii -> list (list ascii)) (fuel : nat)
    (s : list ascii) : list (list ascii) :=
  s :: match fuel with
       | O => []
       | S fuel' =>
           flat_map (fun s' => if Nat.ltb (List.length s') (List.length s)
                               then starRems step fuel' s' else [])
                    (step s)
       end.

Fixpoint rems (r : re) (n : nat) (s : list ascii) : list (list ascii) :=
  match r with
  | Eps => [s]
  | Lit c => match s with
             | c' :: t => if Ascii.eqb c c' then [t] else []
             | [] => []
             end
  | AnyNotNL => match s with
                | c' :: t => if Ascii.eqb c' "010" then [] else [t]
                | [] => []
                end
  | Cat a b => flat_map (rems b n) (rems a n s)
  | Alt a b => rems a n s ++ rems b n s
  | Star a => starRems (rems a n) (List.length s) s
  | Bot => if Nat.eqb (List.length s) n then [s] else []
  | Eot => match s with [] => [s] | _ => [] end
  end.

Fixpoint tails (s : list ascii) : list (list ascii) :=
  s :: match s with [] => [] | _ :: t => tails t end.

Definition matchesAt (r : re) (n : nat) (s : list ascii) : bool :=
  match rems r n s with [] => false | _ => true end.

(** The unanchored search: some position of the text starts a match. *)
Definition matchString (r : re) (text : string) : bool :=
  let s := list_ascii_of_string text in
  existsb (matchesAt r (List.length s)) (tails s).

Definition engine : regexp.Engine :=
  {| regexp.Regexp := re;
     regexp.Compile := compile;
     regexp.MatchString := matchString |}.

End MiniRE2.

(* ===================================================================== *)
(** ** Package [pcommon]: the telemetry data handed to the matcher *)
(* ===================================================================== *)

Module pcommon.

(** Package [pcommon] belongs to the collector's [pdata] library.  [Match]
    uses a map of attributes, the attributes of a resource, and the name
    and version of an instrumentation scope. *)

(** Attribute values: a tagged union.  Doubles and nested maps and lists
    exist in the Go type; no property below looks inside them. *)
Inductive Value : Type :=
| ValueStr (s : string)
| ValueInt (i : Z)
| ValueBool (b : bool)
| ValueBytes (bs : list ascii).

#[global] Instance Value_eq_dec : EqDecision Value.
Proof. solve_decision. Defined.

(** [pcommon.Map]: string keys, order irrelevant. *)
Abbreviation Map := (gmap string Value).

Record Resource : Type := { Attributes : Map }.

Record InstrumentationScope : Type := { Name : string; Version : string }.

End pcommon.

(* ===================================================================== *)
(** ** Package [filterset] *)
(* ===================================================================== *)

Module filterset.

(** Modelled from the spec: the matching strategy of [MatchConfig]
    (section 3), whose declaration is in package [filterset]. *)
Inductive MatchType : Type := Strict | Regexp.

(** Modelled from the spec: [filterset.Config], the [MatchConfig] of
    section 3; only the strategy is looked at. *)
Record Config : Type := { Config_MatchType : MatchType }.

Section WithEngine.
Context {E : regexp.Engine}.

(** Modelled from the spec: the type [FilterSet], declared in package
    [filterset].  Section 9: a closed variant, a set of strings under
    STRICT and a sequence of compiled patterns under REGEXP. *)
Inductive FilterSet : Type :=
| StrictSet (patterns : gset string)
| RegexpSet (regexes : list regexp.Regexp).

(** Modelled from the spec: [Matches] (section 4.1).  STRICT is a
    set-membership test; REGEXP holds iff the search of at least one
    compiled pattern succeeds. *)
Definition Matches (fs : FilterSet) (value : string) : bool :=
  match fs with
  | StrictSet patterns => bool_decide (value ∈ patterns)
  | RegexpSet regexes => existsb (fun r => regexp.MatchString r value) regexes
  end.

(** Modelled from the spec: the compilation of the patterns behind
    [CreateFilterSet], in order; the first invalid pattern aborts with a
    [CompilationError] that carries the pattern and the cause. *)
Fixpoint compileAll (patterns : list string) : result (list regexp.Regexp) :=
  match patterns with
  | [] => OK []
  | p :: rest =>
      match regexp.Compile p with
      | Err cause => Err (CompilationError p cause)
      | OK r => rs ← compileAll rest; OK (r :: rs)
      end
  end.

(** Modelled from the spec: [CreateFilterSet] (section 4.1).  STRICT
    stores each pattern verbatim; REGEXP compiles each pattern and is
    all-or-nothing. *)
Definition CreateFilterSet (patterns : list string) (cfg : Config)
  : result FilterSet :=
  match Config_MatchType cfg with
  | Strict => OK (StrictSet (list_to_set patterns))
  | Regexp => rs ← compileAll patterns; OK (RegexpSet rs)
  end.

End WithEngine.

End filterset.

(* ===================================================================== *)
(** ** Package [filterconfig]: the declarative match specification *)
(* ===================================================================== *)

Module filterconfig.

(** Modelled from the spec: a library constraint of the [MatchSpec]
    (section 4.2), declared in package [filterconfig].  [NewMatcher] reads
    [library.Name] and [library.Version]; the latter is a [*string], and
    [None] is the nil pointer. *)
Record InstrumentationLibrary : Type :=
  { Name : string; Version : option string }.

(** Modelled from the spec: an attribute or resource constraint of the
    [MatchSpec] (section 6), declared in package [filterconfig]: a key and
    an optional required value; without a value the constraint asks for
    the presence of the key. *)
Record Attribute : Type :=
  { Key : string; Value : option pcommon.Value }.

(** Modelled from the spec: the [MatchSpec] (section 4.2), declared in
    package [filterconfig]; the four fields are those that [NewMatcher]
    reads. *)
Record MatchProperties : Type := {
  Config : filterset.Config;
  Libraries : list InstrumentationLibrary;
  Attributes : list Attribute;
  Resources : list Attribute
}.

End filterconfig.

(* ===================================================================== *)
(** ** Package [filtermatcher] *)
(* ===================================================================== *)

Module filtermatcher.

Section WithEngine.
Context {E : regexp.Engine}.

(** Both fields have the interface type [filterset.FilterSet]; [None]
    is the nil interface value. *)
Record instrumentationLibraryMatcher : Type := {
  Name : option filterset.FilterSet;
  Version : option filterset.FilterSet
}.

(** *** Attribute matchers *)

(** Modelled from the spec: what one attribute constraint requires of
    the value found under its key (section 3, AttributeConstraint): the
    presence of the key, equality with a typed value, or a match of a
    pattern. *)
Inductive requirement : Type :=
| Present
| Equals (v : pcommon.Value)
| Matching (fs : filterset.FilterSet).

(** Modelled from the spec: one entry of an [AttributesMatcher]. *)
Record AttributeMatcher : Type := {
  Key : string;
  Requirement : requirement
}.

(** Modelled from the spec: the type [AttributesMatcher], declared in
    another file of the package.  It is nilable in [filtermatcher.go]
    ([var am AttributesMatcher], [mp.resources != nil]); [None] is nil,
    the matcher that was not configured. *)
Definition AttributesMatcher : Type := option (list AttributeMatcher).

(** Modelled from the spec: a constraint on a key absent from the map
    fails; an unexpected shape of value fails closed (section 9). *)
Definition attributeHolds (attrs : pcommon.Map) (property : AttributeMatcher)
  : bool :=
  match attrs !! Key property with
  | None => false
  | Some attr =>
      match Requirement property with
      | Present => true
      | Equals v => bool_decide (attr = v)
      | Matching fs =>
          match attr with
          | pcommon.ValueStr value => filterset.Matches fs value
          | _ => false
          end
      end
  end.

(** Modelled from the spec: the method [Match] of [AttributesMatcher]
    (sections 3 and 4.2): a logical AND across the constraints, and
    vacuously true for the matcher that is absent. *)
Definition AttributesMatcher_Match (ma : AttributesMatcher)
    (attrs : pcommon.Map) : bool :=
  match ma with
  | None => true
  | Some properties => forallb (attributeHolds attrs) properties
  end.

(** Modelled from the spec: one constraint of the configuration turned
    into its compiled form.  Without a value it is a presence test; a
    string value under REGEXP is compiled as a pattern; any other value
    is compared by typed equality. *)
Definition newAttributeMatcher (config : filterset.Config)
    (attribute : filterconfig.Attribute) : result AttributeMatcher :=
  match filterconfig.Value attribute with
  | None => OK {| Key := filterconfig.Key attribute; Requirement := Present |}
  | Some val =>
      match filterset.Config_MatchType config, val with
      | filterset.Regexp, pcommon.ValueStr pattern =>
          filter ← filterset.CreateFilterSet [pattern] config;
          OK {| Key := filterconfig.Key attribute;
                Requirement := Matching filter |}
      | _, _ =>
          OK {| Key := filterconfig.Key attribute; Requirement := Equals val |}
      end
  end.

(** Modelled from the spec: [NewAttributesMatcher], which builds the
    entries in order and propagates the first build error. *)
Fixpoint NewAttributesMatcher (config : filterset.Config)
    (attributes : list filterconfig.Attribute)
  : result (list AttributeMatcher) :=
  match attributes with
  | [] => OK []
  | attribute :: rest =>
      entry ← newAttributeMatcher config attribute;
      entries ← NewAttributesMatcher config rest;
      OK (entry :: entries)
  end.

(** *** [PropertiesMatcher] and its constructor *)

Record PropertiesMatcher : Type := {
  libraries : list instrumentationLibraryMatcher;
  attributes : AttributesMatcher;
  resources : AttributesMatcher
}.

(** The zero value [PropertiesMatcher{}]. *)
Definition zeroPropertiesMatcher : PropertiesMatcher :=
  {| libraries := []; attributes := None; resources := None |}.

(** [fmt.Errorf] with a [%w] verb: the message names the field. *)
Definition wrap {A} (msg : string) (r : result A) : result A :=
  match r with
  | OK a => OK a
  | Err err => Err (ErrWrap msg err)
  end.

(** The loop of [NewMatcher] over [mp.Libraries], with [lm] the slice
    built so far and a [return] with an error as the [Err] case. *)
Fixpoint newLibraryMatchers (config : filterset.Config)
    (libs : list filterconfig.InstrumentationLibrary)
    (lm : list instrumentationLibraryMatcher)
  : result (list instrumentationLibraryMatcher) :=
  match libs with
  | [] => OK lm
  | library :: rest =>
      name ← wrap "error creating library name filters"
               (filterset.CreateFilterSet [filterconfig.Name library] config);
      version ← match filterconfig.Version library with
                | Some v =>
                    filter ← wrap "error creating library version filters"
                               (filterset.CreateFilterSet [v] config);
                    OK (Some filter)
                | None => OK None
                end;
      newLibraryMatchers config rest
        (lm ++ [{| Name := Some name; Version := version |}])
  end.

(** [NewMatcher]: the Go pair (matcher, error). *)
Definition NewMatcher (mp : filterconfig.MatchProperties)
  : PropertiesMatcher * option error :=
  let built :=
    lm ← newLibraryMatchers (filterconfig.Config mp) (filterconfig.Libraries mp) [];
    am ← (if Nat.ltb 0 (List.length (filterconfig.Attributes mp))
          then am ← wrap "error creating attribute filters"
                      (NewAttributesMatcher (filterconfig.Config mp)
                                            (filterconfig.Attributes mp));
               OK (Some am)
          else OK None);
    rm ← (if Nat.ltb 0 (List.length (filterconfig.Resources mp))
          then rm ← wrap "error creating resource filters"
                      (NewAttributesMatcher (filterconfig.Config mp)
                                            (filterconfig.Resources mp));
               OK (Some rm)
          else OK None);
    OK {| libraries := lm; attributes := am; resources := rm |} in
  match built with
  | Err err => (zeroPropertiesMatcher, Some err)
  | OK m => (m, None)
  end.

(** *** Evaluation *)

(** What [Match] can reach: the matcher behind the receiver pointer and
    the data behind its three arguments. *)
Record Store : Type := {
  st_mp : PropertiesMatcher;
  st_attributes : pcommon.Map;
  st_resource : pcommon.Resource;
  st_library : pcommon.InstrumentationScope
}.

(** A Go call either returns or panics (a method called on a nil
    interface value). *)
Inductive outcome (A : Type) : Type :=
| Returns (a : A)
| Panics.
Global Arguments Returns {A} a.
Global Arguments Panics {A}.

Definition M (A : Type) : Type := Store -> outcome A * Store.

#[global] Instance M_ret : MRet M := fun _ a s => (Returns a, s).
#[global] Instance M_bind : MBind M := fun _ _ f m s =>
  match m s with
  | (Returns a, s') => f a s'
  | (Panics, s') => (Panics, s')
  end.

Definition read {A} (f : Store -> A) : M A := fun s => (Returns (f s), s).
Definition panic {A} : M A := fun s => (Panics, s).

(** [fs.Matches(value)] for [fs] of interface type. *)
Definition FilterSet_Matches (fs : option filterset.FilterSet)
    (value : string) : M bool :=
  match fs with
  | None => panic
  | Some f => mret (filterset.Matches f value)
  end.

(** The [for ... range mp.libraries] loop; [Some b] when the body
    executed [return b], [None] when the loop ran to its end. *)
Fixpoint rangeLibraries (ms : list instrumentationLibraryMatcher)
  : M (option bool) :=
  match ms with
  | [] => mret None
  | matcher :: rest =>
      name ← read (fun s => pcommon.Name (st_library s));
      nameOk ← FilterSet_Matches (Name matcher) name;
      if negb nameOk then mret (Some false)
      else
        versionFails ←
          match Version matcher with
          | None => mret false
          | Some _ =>
              version ← read (fun s => pcommon.Version (st_library s));
              versionOk ← FilterSet_Matches (Version matcher) version;
              mret (negb versionOk)
          end;
        if (versionFails : bool) then mret (Some false)
        else rangeLibraries rest
  end.

(** [Match], method of [*PropertiesMatcher]. *)
Definition Match : M bool :=
  ms ← read (fun s => libraries (st_mp s));
  returned ← rangeLibraries ms;
  match returned with
  | Some b => mret b
  | None =>
      rm ← read (fun s => resources (st_mp s));
      resourcesFail ←
        match rm with
        | None => mret false
        | Some _ =>
            attrs ← read (fun s => pcommon.Attributes (st_resource s));
            mret (negb (AttributesMatcher_Match rm attrs))
        end;
      if (resourcesFail : bool) then mret false
      else
        am ← read (fun s => attributes (st_mp s));
        attrs ← read st_attributes;
        mret (AttributesMatcher_Match am attrs)
  end.

(** One call [mp.Match(attributes, resource, library)]: its outcome. *)
Definition callMatch (mp : PropertiesMatcher) (attrs : pcommon.Map)
    (resource : pcommon.Resource) (library : pcommon.InstrumentationScope)
  : outcome bool :=
  fst (Match {| st_mp := mp; st_attributes := attrs;
                st_resource := resource; st_library := library |}).

End WithEngine.

End filtermatcher.

(* ===================================================================== *)
(** ** Package [ottlfuncs]: the OTTL function [IsMatch] *)
(* ===================================================================== *)

Module ottl.

Section Types.
(** [Other] stands for the dynamic values that are neither strings nor
    booleans. *)
Context {Other : Type}.

Inductive dynamic : Type :=
| DString (s : string)
| DBool (b : bool)
| DOther (o : Other).

(** A Go [interface{}]: [None] is the nil interface value. *)
Definition any : Type := option dynamic.

(** [Getter[K].Get] and [ExprFunc[K]] both return the Go pair
    (value, error). *)
Definition Getter (K : Type) : Type := K -> any * option error.
Definition ExprFunc (K : Type) : Type := K -> any * option error.
End Types.
Global Arguments dynamic : clear implicits.
Global Arguments any : clear implicits.
Global Arguments Getter : clear implicits.
Global Arguments ExprFunc : clear implicits.

End ottl.

Module ottlfuncs.

Section WithEngine.
Context {E : regexp.Engine} {Other K : Type}.

(** The closure that [IsMatch] returns, for a compiled pattern. *)
Definition isMatchFunc (target : ottl.Getter Other K)
    (compiledPattern : regexp.Regexp) : ottl.ExprFunc Other K :=
  fun ctx =>
    match target ctx with
    | (_, Some err) => (None, Some err)
    | (val, None) =>
        match val with
        | Some (ottl.DString valStr) =>
            (Some (ottl.DBool (regexp.MatchString compiledPattern valStr)), None)
        | _ => (Some (ottl.DBool false), None)
        end
    end.

Definition IsMatch (target : ottl.Getter Other K) (pattern : string)
  : option (ottl.ExprFunc Other K) * option error :=
  match regexp.Compile pattern with
  | Err err =>
      (None,
       Some (ErrWrap "the pattern supplied to IsMatch is not a valid regexp pattern" err))
  | OK compiledPattern => (Some (isMatchFunc target compiledPattern), None)
  end.

End WithEngine.

End ottlfuncs.

(* ===================================================================== *)
(** ** Package [loadscraper]: the scraper of the load averages *)
(* ===================================================================== *)

Module loadscraper.

(** [metricsLen]. *)
Definition metricsLen : Z := 3.

(** Multiplication of two [uint64]: it wraps. *)
Definition uint64_mul (a b : Z) : Z := (a * b) mod 2 ^ 64.

(** [load.AvgStat] of gopsutil: three [float64] fields. *)
Record AvgStat : Type := { Load1 : float; Load5 : float; Load15 : float }.

(** What the methods can reach outside the scraper: the [AvgStat] objects
    behind the pointers that [s.load] returns, and the environment of the
    process (sampler, logger output, clock, operating system). *)
Record World (Env : Type) : Type := {
  avgStats : gmap positive AvgStat;
  env : Env
}.
Arguments avgStats {Env} w.
Arguments env {Env} w.

(** The collaborators that the file imports.  [startSampling] and
    [stopSampling] belong to another file of the package, the metrics
    builder to the generated package [metadata], [PerfCounterInitError] to
    package [perfcounters]; the others are libraries. *)
Class Host : Type := {
  Env : Type;
  context_Context : Type;
  Logger : Type;
  BuildInfo : Type;
  MetricsSettings : Type;
  MetricsBuilder : Type;
  pmetric_Metrics : Type;
  startSampling : context_Context -> Logger -> Env -> option error * Env;
  stopSampling : context_Context -> Env -> option error * Env;
  Logger_Error : Logger -> string -> error -> Env -> Env;
  (** [pcommon.NewTimestampFromTime(time.Now())]. *)
  time_Now : Env -> Z * Env;
  runtime_NumCPU : Z;
  (** The dynamic type of one error value is [*PerfCounterInitError]. *)
  isPerfCounterInitError : error -> bool;
  NewMetricsBuilder : MetricsSettings -> BuildInfo -> Z -> MetricsBuilder;
  RecordSystemCPULoadAverage1mDataPoint : Z -> float -> MetricsBuilder -> MetricsBuilder;
  RecordSystemCPULoadAverage5mDataPoint : Z -> float -> MetricsBuilder -> MetricsBuilder;
  RecordSystemCPULoadAverage15mDataPoint : Z -> float -> MetricsBuilder -> MetricsBuilder;
  Emit : MetricsBuilder -> pmetric_Metrics * MetricsBuilder;
  pmetric_NewMetrics : pmetric_Metrics;
  host_BootTime : World Env -> (Z * option error) * World Env;
  getSampledLoadAverages : World Env -> (option positive * option error) * World Env
}.

(** [scrapererror.NewPartialScrapeError(err, failed)], the only error that
    [scrape] returns. *)
Inductive scrapeError : Type :=
| PartialScrapeError (err : error) (failed : Z).

(** [errors.As(err, &initErr)] for a non-nil [err]: some error of the chain
    of [err] has the target type. *)
Fixpoint errors_As (isTarget : error -> bool) (err : error) : bool :=
  isTarget err
  || match err with
     | ErrNew _ => false
     | ErrWrap _ cause => errors_As isTarget cause
     | CompilationError _ cause => errors_As isTarget cause
     end.

Section WithHost.
Context {H : Host}.

Record ReceiverCreateSettings : Type := {
  settings_Logger : Logger;
  settings_BuildInfo : BuildInfo
}.

(** The fields of [Config] that the file reads. *)
Record Config : Type := {
  CPUAverage : bool;
  Config_Metrics : MetricsSettings
}.

(** [mb] is a pointer: [None] is nil. *)
Record scraper : Type := {
  settings : ReceiverCreateSettings;
  config : Config;
  mb : option MetricsBuilder;
  skipScrape : bool;
  bootTime : World Env -> (Z * option error) * World Env;
  load : World Env -> (option positive * option error) * World Env
}.

Definition set_mb (s : scraper) (m : option MetricsBuilder) : scraper :=
  {| settings := settings s; config := config s; mb := m;
     skipScrape := skipScrape s; bootTime := bootTime s; load := load s |}.

Definition set_skipScrape (s : scraper) (b : bool) : scraper :=
  {| settings := settings s; config := config s; mb := mb s;
     skipScrape := b; bootTime := bootTime s; load := load s |}.

Definition set_env (w : World Env) (e : Env) : World Env :=
  {| avgStats := avgStats w; env := e |}.

Definition set_avgStat (w : World Env) (p : positive) (v : AvgStat) : World Env :=
  {| avgStats := <[p := v]> (avgStats w); env := env w |}.

(** [newLoadScraper]. *)
Definition newLoadScraper (st : ReceiverCreateSettings) (cfg : Config) : scraper :=
  {| settings := st; config := cfg; mb := None; skipScrape := false;
     bootTime := host_BootTime; load := getSampledLoadAverages |}.

(** [start]: the returned error, the scraper and the world after the
    call. *)
Definition start (ctx : context_Context) (s : scraper) (w : World Env)
  : option error * scraper * World Env :=
  let '((bt, err), w1) := bootTime s w in
  match err with
  | Some e => (Some e, s, w1)
  | None =>
      let s1 :=
        set_mb s (Some (NewMetricsBuilder (Config_Metrics (config s))
                          (settings_BuildInfo (settings s))
                          (uint64_mul bt (10 ^ 9)))) in
      let '(err, e2) := startSampling ctx (settings_Logger (settings s)) (env w1) in
      let w2 := set_env w1 e2 in
      match err with
      | Some e =>
          if errors_As isPerfCounterInitError e then
            (None, set_skipScrape s1 true,
             set_env w2
               (Logger_Error (settings_Logger (settings s))
                  "Failed to init performance counters, load metrics will not be scraped"
                  e e2))
          else (Some e, s1, w2)
      | None => (None, s1, w2)
      end
  end.

(** [shutdown]. *)
Definition shutdown (ctx : context_Context) (s : scraper) (w : World Env)
  : option error * World Env :=
  if skipScrape s then (None, w)
  else let '(err, e1) := stopSampling ctx (env w) in (err, set_env w e1).

(** The three divisions of [scrape], on the object itself. *)
Definition divideBy (divisor : float) (v : AvgStat) : AvgStat :=
  {| Load1 := PrimFloat.div (Load1 v) divisor;
     Load5 := PrimFloat.div (Load5 v) divisor;
     Load15 := PrimFloat.div (Load15 v) divisor |}.

(** [float64(runtime.NumCPU())]. *)
Definition divisorOfCPUs : float := PrimFloat.of_uint63 (Uint63.of_Z runtime_NumCPU).

(** [scrape]: the outcome, the scraper and the world after the call.  A
    nil pointer from [s.load], or a nil [s.mb], makes the call panic where
    it is first dereferenced. *)
Definition scrape (s : scraper) (w : World Env)
  : filtermatcher.outcome (pmetric_Metrics * option scrapeError)
    * scraper * World Env :=
  if skipScrape s then (filtermatcher.Returns (pmetric_NewMetrics, None), s, w)
  else
    let '(now, e1) := time_Now (env w) in
    let '((avgLoadValues, err), w2) := load s (set_env w e1) in
    match err with
    | Some e =>
        (filtermatcher.Returns
           (pmetric_NewMetrics, Some (PartialScrapeError e metricsLen)), s, w2)
    | None =>
        match avgLoadValues ≫= (fun p => (fun v => (p, v)) <$> avgStats w2 !! p) with
        | None => (filtermatcher.Panics, s, w2)
        | Some (p, v) =>
            let v' := if CPUAverage (config s)
                      then divideBy divisorOfCPUs v else v in
            let w3 := if CPUAverage (config s) then set_avgStat w2 p v' else w2 in
            match mb s with
            | None => (filtermatcher.Panics, s, w3)
            | Some mb0 =>
                let mb1 := RecordSystemCPULoadAverage1mDataPoint now (Load1 v') mb0 in
                let mb2 := RecordSystemCPULoadAverage5mDataPoint now (Load5 v') mb1 in
                let mb3 := RecordSystemCPULoadAverage15mDataPoint now (Load15 v') mb2 in
                let '(metrics, mb4) := Emit mb3 in
                (filtermatcher.Returns (metrics, None), set_mb s (Some mb4), w3)
            end
        end
    end.

(** [n] calls of [scrape] in a row; the outcomes, oldest first. *)
Fixpoint scrapes (n : nat) (s : scraper) (w : World Env)
  : list (filtermatcher.outcome (pmetric_Metrics * option scrapeError))
    * scraper * World Env :=
  match n with
  | O => ([], s, w)
  | S n' =>
      let '(o, s1, w1) := scrape s w in
      let '(os, s2, w2) := scrapes n' s1 w1 in
      (o :: os, s2, w2)
  end.

End WithHost.

End loadscraper.

(* ===================================================================== *)
(** ** Predicates used to state the properties *)
(* ===================================================================== *)

Section Predicates.
Context {E : regexp.Engine}.

(** One compiled library constraint accepts a scope: the name passes the
    name filter and, when a version filter is there, the version passes
    it. *)
Definition libraryAccepts (library : pcommon.InstrumentationScope)
    (matcher : filtermatcher.instrumentationLibraryMatcher) : bool :=
  match filtermatcher.Name matcher with
  | None => false
  | Some n => filterset.Matches n (pcommon.Name library)
  end
  && match filtermatcher.Version matcher with
     | None => true
     | Some v => filterset.Matches v (pcommon.Version library)
     end.

(** Every name filter is a real filter set, not the nil interface. *)
Definition namesPresent
    (ms : list filtermatcher.instrumentationLibraryMatcher) : Prop :=
  Forall (fun m => is_Some (filtermatcher.Name m)) ms.

(** The resource gate: passed when no resource matcher is configured. *)
Definition resourcesAccept (m : filtermatcher.PropertiesMatcher)
    (resource : pcommon.Resource) : bool :=
  match filtermatcher.resources m with
  | None => true
  | Some _ =>
      filtermatcher.AttributesMatcher_Match (filtermatcher.resources m)
        (pcommon.Attributes resource)
  end.

(** [matcher] is the compiled form of the configured [library]. *)
Definition compiledFrom (config : filterset.Config)
    (library : filterconfig.InstrumentationLibrary)
    (matcher : filtermatcher.instrumentationLibraryMatcher) : Prop :=
  (exists n,
      filterset.CreateFilterSet [filterconfig.Name library] config = OK n
      /\ filtermatcher.Name matcher = Some n)
  /\ match filterconfig.Version library with
     | None => filtermatcher.Version matcher = None
     | Some v =>
         exists f, filterset.CreateFilterSet [v] config = OK f
                   /\ filtermatcher.Version matcher = Some f
     end.

(** Some pattern that the configuration asks [NewMatcher] to compile is
    rejected. *)
Definition failsToCompile (mp : filterconfig.MatchProperties) : Prop :=
  (exists library, library ∈ filterconfig.Libraries mp
      /\ (is_err (filterset.CreateFilterSet [filterconfig.Name library]
                    (filterconfig.Config mp)) = true
          \/ exists v, filterconfig.Version library = Some v
               /\ is_err (filterset.CreateFilterSet [v]
                            (filterconfig.Config mp)) = true))
  \/ (filterconfig.Attributes mp <> []
      /\ is_err (filtermatcher.NewAttributesMatcher (filterconfig.Config mp)
                   (filterconfig.Attributes mp)) = true)
  \/ (filterconfig.Resources mp <> []
      /\ is_err (filtermatcher.NewAttributesMatcher (filterconfig.Config mp)
                   (filterconfig.Resources mp)) = true).

(** The message of a wrapped error names the field whose compilation
    produced [cause]. *)
Definition identifiesField (mp : filterconfig.MatchProperties)
    (msg : string) (cause : error) : Prop :=
  (msg = "error creating library name filters"
   /\ exists library, library ∈ filterconfig.Libraries mp
        /\ filterset.CreateFilterSet [filterconfig.Name library]
             (filterconfig.Config mp) = Err cause)
  \/ (msg = "error creating library version filters"
      /\ exists library v, library ∈ filterconfig.Libraries mp
           /\ filterconfig.Version library = Some v
           /\ filterset.CreateFilterSet [v] (filterconfig.Config mp) = Err cause)
  \/ (msg = "error creating attribute filters"
      /\ filtermatcher.NewAttributesMatcher (filterconfig.Config mp)
           (filterconfig.Attributes mp) = Err cause)
  \/ (msg = "error creating resource filters"
      /\ filtermatcher.NewAttributesMatcher (filterconfig.Config mp)
           (filterconfig.Resources mp) = Err cause).

(** The optional sub-matcher built from a list of constraints. *)
Definition builtFrom (config : filterset.Config)
    (constraints : list filterconfig.Attribute)
    (ma : filtermatcher.AttributesMatcher) : Prop :=
  match constraints with
  | [] => ma = None
  | _ => exists entries,
      filtermatcher.NewAttributesMatcher config constraints = OK entries
      /\ ma = Some entries
  end.

End Predicates.

(* ===================================================================== *)
(** ** Sample configurations and records *)
(* ===================================================================== *)

Module Samples.

Definition strictConfig : filterset.Config :=
  {| filterset.Config_MatchType := filterset.Strict |}.

Definition regexpConfig : filterset.Config :=
  {| filterset.Config_MatchType := filterset.Regexp |}.

(** No library, attribute or resource constraint. *)
Definition emptySpec (config : filterset.Config) : filterconfig.MatchProperties :=
  {| filterconfig.Config := config;
     filterconfig.Libraries := [];
     filterconfig.Attributes := [];
     filterconfig.Resources := [] |}.

(** One library constraint and nothing else. *)
Definition oneLibrary (config : filterset.Config) (name : string)
    (version : option string) : filterconfig.MatchProperties :=
  {| filterconfig.Config := config;
     filterconfig.Libraries :=
       [{| filterconfig.Name := name; filterconfig.Version := version |}];
     filterconfig.Attributes := [];
     filterconfig.Resources := [] |}.

(** The resource attribute [host.name] must equal "guarana" and the
    attribute [http.status] must be present. *)
Definition guarana : filterconfig.MatchProperties :=
  {| filterconfig.Config := strictConfig;
     filterconfig.Libraries := [];
     filterconfig.Attributes :=
       [{| filterconfig.Key := "http.status"; filterconfig.Value := None |}];
     filterconfig.Resources :=
       [{| filterconfig.Key := "host.name";
           filterconfig.Value := Some (pcommon.ValueStr "guarana") |}] |}.

(** A library name that is not a regular expression. *)
Definition badLibraryName : filterconfig.MatchProperties :=
  oneLibrary regexpConfig "([" None.

Definition withStatus : pcommon.Map :=
  {[ "http.status" := pcommon.ValueInt 200 ]}.

(** A resource without the key [host.name]. *)
Definition otherHost : pcommon.Resource :=
  {| pcommon.Attributes := {[ "service.name" := pcommon.ValueStr "checkout" ]} |}.

Definition emptyResource : pcommon.Resource := {| pcommon.Attributes := ∅ |}.

Definition emptyScope : pcommon.InstrumentationScope :=
  {| pcommon.Name := EmptyString; pcommon.Version := EmptyString |}.

Definition scopeA : pcommon.InstrumentationScope :=
  {| pcommon.Name := "lib-a"; pcommon.Version := "1.2.3" |}.

(** A getter over numbered contexts: a string, nil, a value that is not
    a string, and an error. *)
Definition getter : ottl.Getter Z nat := fun ctx =>
  match ctx with
  | 0 => (Some (ottl.DString "abcdef"), None)
  | 1 => (None, None)
  | 2 => (Some (ottl.DOther 42%Z), None)
  | _ => (None, Some (ErrNew "no such path"))
  end.

End Samples.

(** A small host for the load scraper: a sampler that starts only when the
    performance counters are available, a logger that keeps the messages, a
    clock that ticks, and a metrics builder that lists its data points. *)
Module LoadSamples.

Record SampleEnv : Type := {
  countersOk : bool;
  running : nat;
  logged : list string;
  clock : Z
}.

Definition point : Type := (string * Z * float)%type.

Definition initError : error :=
  ErrWrap "sampler" (ErrNew "perf counter init").

Definition host : loadscraper.Host := {|
  loadscraper.Env := SampleEnv;
  loadscraper.context_Context := unit;
  loadscraper.Logger := unit;
  loadscraper.BuildInfo := unit;
  loadscraper.MetricsSettings := unit;
  loadscraper.MetricsBuilder := (Z * list point)%type;
  loadscraper.pmetric_Metrics := list point;
  loadscraper.startSampling := fun _ _ e =>
    if countersOk e
    then (None, {| countersOk := true; running := S (running e);
                   logged := logged e; clock := clock e |})
    else (Some initError, e);
  loadscraper.stopSampling := fun _ e =>
    (None, {| countersOk := countersOk e; running := pred (running e);
              logged := logged e; clock := clock e |});
  loadscraper.Logger_Error := fun _ msg _ e =>
    {| countersOk := countersOk e; running := running e;
       logged := msg :: logged e; clock := clock e |};
  loadscraper.time_Now := fun e =>
    (clock e, {| countersOk := countersOk e; running := running e;
                 logged := logged e; clock := (clock e + 1)%Z |});
  loadscraper.runtime_NumCPU := 4;
  loadscraper.isPerfCounterInitError := fun e =>
    match e with
    | ErrNew msg => String.eqb msg "perf counter init"
    | _ => false
    end;
  loadscraper.NewMetricsBuilder := fun _ _ startTime => (startTime, []);
  loadscraper.RecordSystemCPULoadAverage1mDataPoint := fun now v b =>
    (fst b, snd b ++ [("system.cpu.load_average.1m", now, v)]);
  loadscraper.RecordSystemCPULoadAverage5mDataPoint := fun now v b =>
    (fst b, snd b ++ [("system.cpu.load_average.5m", now, v)]);
  loadscraper.RecordSystemCPULoadAverage15mDataPoint := fun now v b =>
    (fst b, snd b ++ [("system.cpu.load_average.15m", now, v)]);
  loadscraper.Emit := fun b => (snd b, (fst b, []));
  loadscraper.pmetric_NewMetrics := [];
  loadscraper.host_BootTime := fun w => ((1700000000%Z, None), w);
  loadscraper.getSampledLoadAverages := fun w => ((Some 1%positive, None), w)
|}.

Definition settings : loadscraper.ReceiverCreateSettings (H:=host) :=
  {| loadscraper.settings_Logger := (tt : loadscraper.Logger (Host:=host));
     loadscraper.settings_BuildInfo := (tt : loadscraper.BuildInfo (Host:=host)) |}.

Definition config (cpuAverage : bool) : loadscraper.Config (H:=host) :=
  {| loadscraper.CPUAverage := cpuAverage;
     loadscraper.Config_Metrics := (tt : loadscraper.MetricsSettings (Host:=host)) |}.

(** A world with one [AvgStat] object, at the pointer that the sample
    [load] returns. *)
Definition world (countersOk : bool)
  : loadscraper.World (loadscraper.Env (Host:=host)) :=
  {| loadscraper.avgStats :=
       {[ 1%positive := {| loadscraper.Load1 := 2%float;
                           loadscraper.Load5 := 4%float;
                           loadscraper.Load15 := 8%float |} ]};
     loadscraper.env := {| countersOk := countersOk; running := 0;
                           logged := []; clock := 100 |} |}.

(** A scraper whose boot time cannot be read. *)
Definition noBootTime : loadscraper.scraper (H:=host) :=
  {| loadscraper.settings := settings;
     loadscraper.config := config false;
     loadscraper.mb := None;
     loadscraper.skipScrape := false;
     loadscraper.bootTime := fun w => ((0%Z, Some (ErrNew "no boot time")), w);
     loadscraper.load := loadscraper.getSampledLoadAverages |}.

(** A started scraper whose [load] fails. *)
Definition noLoad : loadscraper.scraper (H:=host) :=
  {| loadscraper.settings := settings;
     loadscraper.config := config false;
     loadscraper.mb := Some ((0%Z, []) : loadscraper.MetricsBuilder (Host:=host));
     loadscraper.skipScrape := false;
     loadscraper.bootTime := loadscraper.host_BootTime;
     loadscraper.load := fun w => ((None, Some (ErrNew "no load")), w) |}.

(** A started scraper. *)
Definition started (cpuAverage : bool) : loadscraper.scraper (H:=host) :=
  {| loadscraper.settings := settings;
     loadscraper.config := config cpuAverage;
     loadscraper.mb := Some ((0%Z, []) : loadscraper.MetricsBuilder (Host:=host));
     loadscraper.skipScrape := false;
     loadscraper.bootTime := loadscraper.host_BootTime;
     loadscraper.load := loadscraper.getSampledLoadAverages |}.

End LoadSamples.

(* ===================================================================== *)
(** ** Further predicates *)
(* ===================================================================== *)

Section LoadPredicates.
Context {H : loadscraper.Host}.

(** The sampler's answer to the [startSampling] of [start]. *)
Definition samplerAnswer (ctx : loadscraper.context_Context)
    (s : loadscraper.scraper) (w : loadscraper.World loadscraper.Env)
  : option error :=
  fst (loadscraper.startSampling ctx
         (loadscraper.settings_Logger (loadscraper.settings s))
         (loadscraper.env (snd (loadscraper.bootTime s w)))).

End LoadPredicates.

Module MoreSamples.

(** A good library followed by one whose name does not compile, with an
    attribute pattern that does not compile either. *)
Definition secondLibraryBad : filterconfig.MatchProperties :=
  {| filterconfig.Config := Samples.regexpConfig;
     filterconfig.Libraries :=
       [{| filterconfig.Name := "lib-a"; filterconfig.Version := Some "^1\." |};
        {| filterconfig.Name := "(["; filterconfig.Version := Some "(" |}];
     filterconfig.Attributes :=
       [{| filterconfig.Key := "http.method";
           filterconfig.Value := Some (pcommon.ValueStr "(") |}];
     filterconfig.Resources := [] |}.

(** Two library constraints without versions, and no other constraint. *)
Definition twoNames : filterconfig.MatchProperties :=
  {| filterconfig.Config := Samples.regexpConfig;
     filterconfig.Libraries :=
       [{| filterconfig.Name := "^lib-"; filterconfig.Version := None |};
        {| filterconfig.Name := "a$"; filterconfig.Version := None |}];
     filterconfig.Attributes := [];
     filterconfig.Resources := [] |}.

End MoreSamples.

Section ConstructionPredicates.
Context {E : regexp.Engine}.

(** Both patterns of a configured library compile: the name, and the
    version when there is one. *)
Definition compiles (config : filterset.Config)
    (library : filterconfig.InstrumentationLibrary) : Prop :=
  is_err (filterset.CreateFilterSet [filterconfig.Name library] config) = false
  /\ forall v, filterconfig.Version library = Some v ->
                is_err (filterset.CreateFilterSet [v] config) = false.

(** A matcher with the given library matchers and the sub-matchers of
    [m]. *)
Definition withLibraries (m : filtermatcher.PropertiesMatcher)
    (ms : list filtermatcher.instrumentationLibraryMatcher)
  : filtermatcher.PropertiesMatcher :=
  {| filtermatcher.libraries := ms;
     filtermatcher.attributes := filtermatcher.attributes m;
     filtermatcher.resources := filtermatcher.resources m |}.

End ConstructionPredicates.

(* ===================================================================== *)
(** ** Evaluation: the loop and the gates *)
(* ===================================================================== *)

Ltac run_monad :=
  unfold mbind, filtermatcher.M_bind, mret, filtermatcher.M_ret,
    filtermatcher.read, filtermatcher.FilterSet_Matches, filtermatcher.panic;
  simpl.

Section MatchFacts.
Context {E : regexp.Engine}.

(** One iteration of the loop, written out. *)
Lemma rangeLibraries_cons matcher rest s :
  filtermatcher.rangeLibraries (matcher :: rest) s =
  match filtermatcher.Name matcher with
  | None => (filtermatcher.Panics, s)
  | Some n =>
      if filterset.Matches n (pcommon.Name (filtermatcher.st_library s)) then
        match filtermatcher.Version matcher with
        | None => filtermatcher.rangeLibraries rest s
        | Some v =>
            if filterset.Matches v (pcommon.Version (filtermatcher.st_library s))
            then filtermatcher.rangeLibraries rest s
            else (filtermatcher.Returns (Some false), s)
        end
      else (filtermatcher.Returns (Some false), s)
  end.
Proof.
  simpl. run_monad.
  destruct (filtermatcher.Name matcher) as [n|]; simpl; [|reflexivity].
  destruct (filterset.Matches n _); simpl; [|reflexivity].
  destruct (filtermatcher.Version matcher) as [v|]; simpl; [|reflexivity].
  destruct (filterset.Matches v _); reflexivity.
Qed.

Lemma rangeLibraries_frame ms s : snd (filtermatcher.rangeLibraries ms s) = s.
Proof.
  induction ms as [|matcher rest IH]; [reflexivity|].
  rewrite rangeLibraries_cons.
  destruct (filtermatcher.Name matcher) as [n|]; [|reflexivity].
  destruct (filterset.Matches n _); [|reflexivity].
  destruct (filtermatcher.Version matcher) as [v|]; [|exact IH].
  destruct (filterset.Matches v _); [exact IH|reflexivity].
Qed.

Lemma rangeLibraries_present ms s :
  namesPresent ms ->
  filtermatcher.rangeLibraries ms s =
  (filtermatcher.Returns
     (if forallb (libraryAccepts (filtermatcher.st_library s)) ms
      then None else Some false), s).
Proof.
  induction 1 as [|matcher rest [n Hn] _ IH]; [reflexivity|].
  rewrite rangeLibraries_cons. simpl. unfold libraryAccepts at 1. rewrite Hn.
  destruct (filterset.Matches n _); simpl; [|reflexivity].
  destruct (filtermatcher.Version matcher) as [v|]; simpl; [|exact IH].
  destruct (filterset.Matches v _); simpl; [exact IH|reflexivity].
Qed.

(** [Match] after the loop: the resource gate, then the attributes. *)
Lemma Match_after_loop s :
  filtermatcher.Match s =
  match filtermatcher.rangeLibraries
          (filtermatcher.libraries (filtermatcher.st_mp s)) s with
  | (filtermatcher.Panics, s') => (filtermatcher.Panics, s')
  | (filtermatcher.Returns (Some b), s') => (filtermatcher.Returns b, s')
  | (filtermatcher.Returns None, s') =>
      if resourcesAccept (filtermatcher.st_mp s') (filtermatcher.st_resource s')
      then (filtermatcher.Returns
              (filtermatcher.AttributesMatcher_Match
                 (filtermatcher.attributes (filtermatcher.st_mp s'))
                 (filtermatcher.st_attributes s')), s')
      else (filtermatcher.Returns false, s')
  end.
Proof.
  unfold filtermatcher.Match. run_monad.
  destruct (filtermatcher.rangeLibraries _ s) as [[[b|]|] s']; try reflexivity.
  unfold resourcesAccept.
  destruct (filtermatcher.resources (filtermatcher.st_mp s')) as [rm|]; simpl;
    [|reflexivity].
  destruct (forallb _ rm); reflexivity.
Qed.

Lemma Match_present s :
  namesPresent (filtermatcher.libraries (filtermatcher.st_mp s)) ->
  filtermatcher.Match s =
  (filtermatcher.Returns
     (forallb (libraryAccepts (filtermatcher.st_library s))
              (filtermatcher.libraries (filtermatcher.st_mp s))
      && resourcesAccept (filtermatcher.st_mp s) (filtermatcher.st_resource s)
      && filtermatcher.AttributesMatcher_Match
           (filtermatcher.attributes (filtermatcher.st_mp s))
           (filtermatcher.st_attributes s)), s).
Proof.
  intros Hp. rewrite Match_after_loop, (rangeLibraries_present _ _ Hp).
  destruct (forallb _ _); simpl; [|reflexivity].
  destruct (resourcesAccept _ _); reflexivity.
Qed.

Lemma callMatch_present m attrs resource library :
  namesPresent (filtermatcher.libraries m) ->
  filtermatcher.callMatch m attrs resource library =
  filtermatcher.Returns
    (forallb (libraryAccepts library) (filtermatcher.libraries m)
     && resourcesAccept m resource
     && filtermatcher.AttributesMatcher_Match (filtermatcher.attributes m) attrs).
Proof.
  intros Hp. unfold filtermatcher.callMatch.
  rewrite Match_present by exact Hp. reflexivity.
Qed.

End MatchFacts.

(* ===================================================================== *)
(** ** Construction: what [NewMatcher] returns *)
(* ===================================================================== *)

Ltac run_result := unfold mbind, result_bind, filtermatcher.wrap; simpl.

(** Reduces the projections of the records of [filtermatcher], and nothing
    else. *)
Ltac proj_simpl :=
  cbn [filtermatcher.st_mp filtermatcher.st_attributes filtermatcher.st_resource
       filtermatcher.st_library filtermatcher.libraries filtermatcher.attributes
       filtermatcher.resources filtermatcher.Name filtermatcher.Version fst snd].

Section NewMatcherFacts.
Context {E : regexp.Engine}.

Local Arguments filtermatcher.NewAttributesMatcher : simpl never.

Lemma newLibraryMatchers_OK config libs : forall lm lm',
  filtermatcher.newLibraryMatchers config libs lm = OK lm' ->
  exists new, lm' = lm ++ new /\ Forall2 (compiledFrom config) libs new.
Proof.
  induction libs as [|library rest IH]; intros lm lm'; simpl.
  - intros [= <-]. exists []. split; [by rewrite app_nil_r | constructor].
  - run_result.
    destruct (filterset.CreateFilterSet [filterconfig.Name library] config)
      as [n|] eqn:Hn; [|discriminate].
    destruct (filterconfig.Version library) as [v|] eqn:Hv; simpl.
    + destruct (filterset.CreateFilterSet [v] config) as [f|] eqn:Hf;
        [|discriminate]. simpl.
      intros H. destruct (IH _ _ H) as (new & -> & Hnew).
      eexists (_ :: new). split; [by rewrite <- app_assoc|].
      constructor; [|exact Hnew].
      split; [by exists n|]. rewrite Hv. by exists f.
    + intros H. destruct (IH _ _ H) as (new & -> & Hnew).
      eexists (_ :: new). split; [by rewrite <- app_assoc|].
      constructor; [|exact Hnew].
      split; [by exists n|]. by rewrite Hv.
Qed.

Lemma newLibraryMatchers_Err config libs : forall lm e,
  filtermatcher.newLibraryMatchers config libs lm = Err e ->
  exists library, library ∈ libs /\
    ((exists cause,
         filterset.CreateFilterSet [filterconfig.Name library] config = Err cause
         /\ e = ErrWrap "error creating library name filters" cause)
     \/ (exists v cause,
            filterconfig.Version library = Some v
            /\ filterset.CreateFilterSet [v] config = Err cause
            /\ e = ErrWrap "error creating library version filters" cause)).
Proof.
  induction libs as [|library rest IH]; intros lm e; simpl; [discriminate|].
  run_result.
  destruct (filterset.CreateFilterSet [filterconfig.Name library] config)
    as [n|cause] eqn:Hn.
  - destruct (filterconfig.Version library) as [v|] eqn:Hv; simpl.
    + destruct (filterset.CreateFilterSet [v] config) as [f|cause] eqn:Hf; simpl.
      * intros H. destruct (IH _ _ H) as (l & Hl & Hc).
        exists l. split; [by right | exact Hc].
      * intros [= <-]. exists library. split; [by left|].
        right. by exists v, cause.
    + intros H. destruct (IH _ _ H) as (l & Hl & Hc).
      exists l. split; [by right | exact Hc].
  - intros [= <-]. exists library. split; [by left|]. left. by exists cause.
Qed.

Lemma newLibraryMatchers_fails config libs : forall lm library,
  library ∈ libs ->
  is_err (filterset.CreateFilterSet [filterconfig.Name library] config) = true
  \/ (exists v, filterconfig.Version library = Some v
         /\ is_err (filterset.CreateFilterSet [v] config) = true) ->
  is_err (filtermatcher.newLibraryMatchers config libs lm) = true.
Proof.
  induction libs as [|l rest IH]; intros lm library Hin Hbad.
  - by apply elem_of_nil in Hin.
  - simpl. run_result.
    destruct (filterset.CreateFilterSet [filterconfig.Name l] config)
      as [n|] eqn:Hn; [|reflexivity].
    destruct (filterconfig.Version l) as [v|] eqn:Hv; simpl.
    + destruct (filterset.CreateFilterSet [v] config) as [f|] eqn:Hf;
        [|reflexivity]. simpl.
      apply elem_of_cons in Hin as [->|Hin]; [|by eapply IH].
      destruct Hbad as [Hbad|(v' & Hv' & Hbad)].
      * by rewrite Hn in Hbad.
      * rewrite Hv in Hv'. injection Hv' as <-. by rewrite Hf in Hbad.
    + apply elem_of_cons in Hin as [->|Hin]; [|by eapply IH].
      destruct Hbad as [Hbad|(v' & Hv' & Hbad)].
      * by rewrite Hn in Hbad.
      * by rewrite Hv in Hv'.
Qed.

Lemma NewMatcher_OK mp m :
  filtermatcher.NewMatcher mp = (m, None) ->
  Forall2 (compiledFrom (filterconfig.Config mp))
          (filterconfig.Libraries mp) (filtermatcher.libraries m)
  /\ builtFrom (filterconfig.Config mp) (filterconfig.Attributes mp)
               (filtermatcher.attributes m)
  /\ builtFrom (filterconfig.Config mp) (filterconfig.Resources mp)
               (filtermatcher.resources m).
Proof.
  unfold filtermatcher.NewMatcher, builtFrom. run_result.
  destruct (filtermatcher.newLibraryMatchers _ _ _) as [lm|] eqn:Hlm;
    [|discriminate].
  apply newLibraryMatchers_OK in Hlm as (new & -> & Hnew). simpl in *.
  destruct (filterconfig.Attributes mp) as [|at1 attrs]; simpl;
    destruct (filterconfig.Resources mp) as [|rs1 ress]; simpl;
    repeat match goal with
      | |- context [filtermatcher.NewAttributesMatcher ?c ?l] =>
          let H := fresh "H" in
          destruct (filtermatcher.NewAttributesMatcher c l) eqn:H; simpl
      end;
    try discriminate; intros Heq; inversion Heq; subst; simpl; eauto 10.
Qed.

Lemma NewMatcher_Err mp m e :
  filtermatcher.NewMatcher mp = (m, Some e) ->
  m = filtermatcher.zeroPropertiesMatcher
  /\ exists msg cause, e = ErrWrap msg cause /\ identifiesField mp msg cause.
Proof.
  unfold filtermatcher.NewMatcher, identifiesField. run_result.
  destruct (filtermatcher.newLibraryMatchers _ _ _) as [lm|e0] eqn:Hlm.
  - destruct (filterconfig.Attributes mp) as [|at1 attrs] eqn:Ha; simpl;
      destruct (filterconfig.Resources mp) as [|rs1 ress] eqn:Hr; simpl;
      repeat match goal with
        | |- context [filtermatcher.NewAttributesMatcher ?c ?l] =>
            let H := fresh "H" in
            destruct (filtermatcher.NewAttributesMatcher c l) eqn:H; simpl
        end;
      try discriminate; intros Heq; inversion Heq; subst;
      (split; [reflexivity|]);
      do 2 eexists; (split; [reflexivity|]); rewrite ?Ha, ?Hr; eauto 10.
  - intros Heq; inversion Heq; subst. split; [reflexivity|].
    apply newLibraryMatchers_Err in Hlm
      as (l & Hl & [(cause & Hc & ->)|(v & cause & Hv & Hc & ->)]);
      do 2 eexists; (split; [reflexivity|]); eauto 10.
Qed.

Lemma NewMatcher_fails mp :
  failsToCompile mp -> exists e, snd (filtermatcher.NewMatcher mp) = Some e.
Proof.
  unfold failsToCompile, filtermatcher.NewMatcher. run_result.
  intros [(l & Hl & Hbad)|Hbad].
  - pose proof (newLibraryMatchers_fails _ _ [] _ Hl Hbad) as H.
    destruct (filtermatcher.newLibraryMatchers _ _ _); [discriminate|].
    simpl. eauto.
  - destruct (filtermatcher.newLibraryMatchers _ _ _); simpl; [|eauto].
    destruct (filterconfig.Attributes mp) as [|at1 attrs] eqn:Ha; simpl;
      destruct (filterconfig.Resources mp) as [|rs1 ress] eqn:Hr; simpl;
      repeat match goal with
        | |- context [filtermatcher.NewAttributesMatcher ?c ?l] =>
            let H := fresh "H" in
            destruct (filtermatcher.NewAttributesMatcher c l) eqn:H; simpl
        end; eauto;
      destruct Hbad as [[Hne Hbad]|[Hne Hbad]]; simpl in *; congruence.
Qed.

Lemma NewMatcher_namesPresent mp m :
  filtermatcher.NewMatcher mp = (m, None) ->
  namesPresent (filtermatcher.libraries m).
Proof.
  intros H. apply NewMatcher_OK in H as (Hlibs & _).
  unfold namesPresent.
  induction Hlibs as [|l mt ls ms [(n & _ & Hn) _] _ IH]; constructor;
    [by exists n | exact IH].
Qed.

End NewMatcherFacts.

(* ===================================================================== *)
(** ** Properties of [Match] *)
(* ===================================================================== *)

Section MatchProperties.
Context {E : regexp.Engine}.

(** C1.  For a matcher returned by [NewMatcher], [Match] returns the
    conjunction: every library constraint accepts the scope, the resource
    matcher (if configured) accepts the resource attributes, and the
    attributes matcher accepts the attributes.  The library loop and the
    resource check are gates that return false at once; past them the
    verdict of the attributes matcher is the returned value, and that
    verdict is true when no attributes matcher is configured. *)
Theorem Match_is_gated_conjunction mp m attrs resource library :
  filtermatcher.NewMatcher mp = (m, None) ->
  let s := {| filtermatcher.st_mp := m;
              filtermatcher.st_attributes := attrs;
              filtermatcher.st_resource := resource;
              filtermatcher.st_library := library |} in
  let librariesOk := forallb (libraryAccepts library) (filtermatcher.libraries m) in
  let resourcesOk := resourcesAccept m resource in
  let attributesOk :=
    filtermatcher.AttributesMatcher_Match (filtermatcher.attributes m) attrs in
  (filtermatcher.callMatch m attrs resource library = filtermatcher.Returns true
   <-> librariesOk = true /\ resourcesOk = true /\ attributesOk = true)
  /\ filtermatcher.callMatch m attrs resource library
     = filtermatcher.Returns (librariesOk && resourcesOk && attributesOk)
  /\ (librariesOk = false ->
      fst (filtermatcher.rangeLibraries (filtermatcher.libraries m) s)
      = filtermatcher.Returns (Some false)
      /\ filtermatcher.callMatch m attrs resource library
         = filtermatcher.Returns false)
  /\ (librariesOk = true -> resourcesOk = false ->
      filtermatcher.callMatch m attrs resource library
      = filtermatcher.Returns false)
  /\ (librariesOk = true -> resourcesOk = true ->
      filtermatcher.callMatch m attrs resource library
      = filtermatcher.Returns attributesOk)
  /\ (filtermatcher.attributes m = None -> attributesOk = true).
Proof.
  intros Hnew s librariesOk resourcesOk attributesOk.
  pose proof (NewMatcher_namesPresent _ _ Hnew) as Hp.
  pose proof (callMatch_present m attrs resource library Hp) as Hcall.
  fold librariesOk resourcesOk attributesOk in Hcall.
  split; [|split; [|split; [|split; [|split]]]].
  - rewrite Hcall. split.
    + intros [= H]. apply andb_prop in H as [H H3].
      apply andb_prop in H as [H1 H2]. by repeat split.
    + intros (-> & -> & ->). reflexivity.
  - exact Hcall.
  - intros H. split.
    + rewrite (rangeLibraries_present _ s Hp). simpl.
      fold librariesOk. by rewrite H.
    + by rewrite Hcall, H.
  - intros H1 H2. by rewrite Hcall, H1, H2.
  - intros H1 H2. by rewrite Hcall, H1, H2.
  - intros H. subst attributesOk. by rewrite H.
Qed.

(** C2.  A matcher built from a specification with no library, attribute
    or resource constraint is returned without error and matches every
    input. *)
Theorem empty_spec_matches_everything mp attrs resource library :
  filterconfig.Libraries mp = [] ->
  filterconfig.Attributes mp = [] ->
  filterconfig.Resources mp = [] ->
  exists m, filtermatcher.NewMatcher mp = (m, None)
    /\ filtermatcher.callMatch m attrs resource library
       = filtermatcher.Returns true.
Proof.
  intros Hl Ha Hr. exists filtermatcher.zeroPropertiesMatcher.
  unfold filtermatcher.NewMatcher. rewrite Hl, Ha, Hr. by split.
Qed.

(** C6.  [Match] on a matcher returned by [NewMatcher] returns a boolean
    for every input and does not panic; in particular when no attribute
    constraint was configured, the attributes matcher is nil and is
    still the last thing evaluated. *)
Theorem Match_total mp m attrs resource library :
  filtermatcher.NewMatcher mp = (m, None) ->
  (exists b, filtermatcher.callMatch m attrs resource library
             = filtermatcher.Returns b)
  /\ (filterconfig.Attributes mp = [] ->
      filtermatcher.attributes m = None
      /\ filtermatcher.callMatch m attrs resource library
         = filtermatcher.Returns
             (forallb (libraryAccepts library) (filtermatcher.libraries m)
              && resourcesAccept m resource)).
Proof.
  intros Hnew.
  pose proof (NewMatcher_namesPresent _ _ Hnew) as Hp.
  rewrite (callMatch_present m attrs resource library Hp).
  split; [eauto|]. intros Ha.
  apply NewMatcher_OK in Hnew as (_ & Hb & _). rewrite Ha in Hb.
  simpl in Hb. rewrite Hb. simpl. split; [reflexivity|].
  by rewrite andb_true_r.
Qed.

(** C8.  A call of [Match] leaves the store as it found it: the
    attributes map, the resource, the scope and the matcher's compiled
    state are unchanged, whatever the outcome of the call. *)
Theorem Match_frame s : snd (filtermatcher.Match s) = s.
Proof.
  rewrite Match_after_loop.
  pose proof (rangeLibraries_frame
                (filtermatcher.libraries (filtermatcher.st_mp s)) s) as Hf.
  destruct (filtermatcher.rangeLibraries _ s) as [[[b|]|] s']; simpl in *;
    subst s'; try reflexivity.
  by destruct (resourcesAccept _ _).
Qed.

End MatchProperties.

(* ===================================================================== *)
(** ** The gates, one at a time *)
(* ===================================================================== *)

Section Gates.
Context {E : regexp.Engine}.

(** The loop looks at the store only through the scope. *)
Lemma rangeLibraries_scope ms s s' :
  filtermatcher.st_library s = filtermatcher.st_library s' ->
  fst (filtermatcher.rangeLibraries ms s) = fst (filtermatcher.rangeLibraries ms s').
Proof.
  intros Hl. induction ms as [|matcher rest IH]; [reflexivity|].
  rewrite !rangeLibraries_cons, Hl.
  destruct (filtermatcher.Name matcher) as [n|]; [|reflexivity].
  destruct (filterset.Matches n _); [|reflexivity].
  destruct (filtermatcher.Version matcher) as [v|]; [|exact IH].
  destruct (filterset.Matches v _); [exact IH|reflexivity].
Qed.

Lemma rangeLibraries_pair ms s :
  filtermatcher.rangeLibraries ms s = (fst (filtermatcher.rangeLibraries ms s), s).
Proof.
  rewrite <- (rangeLibraries_frame ms s) at 3. apply surjective_pairing.
Qed.

(** The first library constraint decides, or hands over to the rest. *)
Lemma callMatch_cons n version rest am rm attrs resource library :
  filtermatcher.callMatch
    {| filtermatcher.libraries :=
         {| filtermatcher.Name := Some n; filtermatcher.Version := version |}
         :: rest;
       filtermatcher.attributes := am;
       filtermatcher.resources := rm |} attrs resource library
  = if filterset.Matches n (pcommon.Name library) then
      match version with
      | Some v =>
          if filterset.Matches v (pcommon.Version library) then
            filtermatcher.callMatch
              {| filtermatcher.libraries := rest;
                 filtermatcher.attributes := am;
                 filtermatcher.resources := rm |} attrs resource library
          else filtermatcher.Returns false
      | None =>
          filtermatcher.callMatch
            {| filtermatcher.libraries := rest;
               filtermatcher.attributes := am;
               filtermatcher.resources := rm |} attrs resource library
      end
    else filtermatcher.Returns false.
Proof.
  unfold filtermatcher.callMatch. rewrite !Match_after_loop. proj_simpl.
  rewrite rangeLibraries_cons. proj_simpl.
  match goal with
  | |- context [filtermatcher.rangeLibraries rest ?s1] =>
      match goal with
      | |- context [filtermatcher.rangeLibraries rest ?s2] =>
          tryif constr_eq s1 s2 then fail else
            assert (fst (filtermatcher.rangeLibraries rest s1)
                    = fst (filtermatcher.rangeLibraries rest s2)) as Hsame
              by (by apply rangeLibraries_scope);
            rewrite (rangeLibraries_pair rest s1), (rangeLibraries_pair rest s2),
              Hsame;
            clear Hsame;
            generalize (fst (filtermatcher.rangeLibraries rest s2)); intros o
      end
  end.
  destruct (filterset.Matches n _); [|reflexivity].
  destruct version as [v|].
  - destruct (filterset.Matches v _); [|reflexivity].
    destruct o as [[b|]|]; try reflexivity.
    unfold resourcesAccept; proj_simpl.
    destruct rm; [destruct (filtermatcher.AttributesMatcher_Match _ _)|];
      reflexivity.
  - destruct o as [[b|]|]; try reflexivity.
    unfold resourcesAccept; proj_simpl.
    destruct rm; [destruct (filtermatcher.AttributesMatcher_Match _ _)|];
      reflexivity.
Qed.

(** A nil name filter makes the call panic: the partiality that
    [NewMatcher] rules out. *)
Lemma callMatch_nil_name version rest am rm attrs resource library :
  filtermatcher.callMatch
    {| filtermatcher.libraries :=
         {| filtermatcher.Name := None; filtermatcher.Version := version |}
         :: rest;
       filtermatcher.attributes := am;
       filtermatcher.resources := rm |} attrs resource library
  = filtermatcher.Panics.
Proof.
  unfold filtermatcher.callMatch. rewrite Match_after_loop. proj_simpl.
  by rewrite rangeLibraries_cons.
Qed.

Lemma callMatch_no_library am rm attrs resource library :
  filtermatcher.callMatch
    {| filtermatcher.libraries := [];
       filtermatcher.attributes := am;
       filtermatcher.resources := rm |} attrs resource library
  = filtermatcher.Returns
      (match rm with
       | None => true
       | Some _ =>
           filtermatcher.AttributesMatcher_Match rm (pcommon.Attributes resource)
       end
       && filtermatcher.AttributesMatcher_Match am attrs).
Proof.
  unfold filtermatcher.callMatch. rewrite Match_after_loop. proj_simpl.
  change (filtermatcher.rangeLibraries [] ?s) with (filtermatcher.Returns (@None bool), s).
  unfold resourcesAccept. proj_simpl.
  destruct rm; [destruct (filtermatcher.AttributesMatcher_Match _ _)|];
    reflexivity.
Qed.

Lemma Matches_strict_singleton pattern value :
  filterset.Matches (filterset.StrictSet (list_to_set [pattern])) value
  = bool_decide (value = pattern).
Proof.
  unfold filterset.Matches. apply bool_decide_ext.
  rewrite elem_of_list_to_set. apply list_elem_of_singleton.
Qed.

End Gates.

(* ===================================================================== *)
(** ** The resource gate and the library gate *)
(* ===================================================================== *)

(** C3.  With a resource constraint and an attribute constraint configured,
    a record whose resource attributes fail the resource matcher is
    rejected, whatever its own attributes are: the outcome is false for
    every attributes map and would be false for any attributes matcher put
    in place of the configured one. *)
Theorem resource_gate_rejects {E : regexp.Engine} mp m attrs resource library :
  filtermatcher.NewMatcher mp = (m, None) ->
  filterconfig.Resources mp <> [] ->
  filterconfig.Attributes mp <> [] ->
  filtermatcher.AttributesMatcher_Match (filtermatcher.resources m)
    (pcommon.Attributes resource) = false ->
  is_Some (filtermatcher.resources m)
  /\ is_Some (filtermatcher.attributes m)
  /\ filtermatcher.callMatch m attrs resource library = filtermatcher.Returns false
  /\ forall am' attrs',
       filtermatcher.callMatch
         {| filtermatcher.libraries := filtermatcher.libraries m;
            filtermatcher.attributes := am';
            filtermatcher.resources := filtermatcher.resources m |}
         attrs' resource library
       = filtermatcher.Returns false.
Proof.
  intros Hnew Hres Hattr Hfail.
  pose proof (NewMatcher_namesPresent _ _ Hnew) as Hp.
  apply NewMatcher_OK in Hnew as (_ & Ha & Hr).
  unfold builtFrom in Ha, Hr.
  destruct (filterconfig.Resources mp) as [|r0 rs]; [done|].
  destruct (filterconfig.Attributes mp) as [|a0 ats]; [done|].
  destruct Hr as (rentries & _ & Hr). destruct Ha as (aentries & _ & Ha).
  assert (forall am', resourcesAccept
            {| filtermatcher.libraries := filtermatcher.libraries m;
               filtermatcher.attributes := am';
               filtermatcher.resources := filtermatcher.resources m |} resource
          = false) as Hgate.
  { intros am'. unfold resourcesAccept. proj_simpl. by rewrite Hr, <- Hr. }
  split; [by rewrite Hr|]. split; [by rewrite Ha|]. split.
  - rewrite callMatch_present by exact Hp.
    replace (resourcesAccept m resource) with false.
    + by rewrite andb_false_r.
    + symmetry. destruct m. apply (Hgate attributes).
  - intros am' attrs'. rewrite callMatch_present by exact Hp.
    proj_simpl. by rewrite Hgate, andb_false_r.
Qed.

(** C4.  The library constraints are checked in configuration order: the
    first one rejects at once when the scope's name fails its name filter,
    applies its version filter only when it has one, and otherwise hands
    over to the remaining constraints.  [NewMatcher] gives a constraint a
    version filter exactly when the configuration has a version.  The
    single constraint with name "lib-a" and no version accepts scope name
    "lib-a" with any version and rejects scope name "lib-b". *)
Theorem libraries_checked_in_order {E : regexp.Engine} :
  (forall n version rest am rm attrs resource library,
      filtermatcher.callMatch
        {| filtermatcher.libraries :=
             {| filtermatcher.Name := Some n; filtermatcher.Version := version |}
             :: rest;
           filtermatcher.attributes := am;
           filtermatcher.resources := rm |} attrs resource library
      = if filterset.Matches n (pcommon.Name library) then
          match version with
          | Some v =>
              if filterset.Matches v (pcommon.Version library) then
                filtermatcher.callMatch
                  {| filtermatcher.libraries := rest;
                     filtermatcher.attributes := am;
                     filtermatcher.resources := rm |} attrs resource library
              else filtermatcher.Returns false
          | None =>
              filtermatcher.callMatch
                {| filtermatcher.libraries := rest;
                   filtermatcher.attributes := am;
                   filtermatcher.resources := rm |} attrs resource library
          end
        else filtermatcher.Returns false)
  /\ (forall mp m,
         filtermatcher.NewMatcher mp = (m, None) ->
         Forall2 (fun library matcher =>
                    is_Some (filtermatcher.Name matcher)
                    /\ (filterconfig.Version library = None
                        <-> filtermatcher.Version matcher = None))
                 (filterconfig.Libraries mp) (filtermatcher.libraries m))
  /\ (forall attrs resource version,
         let mp := Samples.oneLibrary Samples.strictConfig "lib-a" None in
         snd (filtermatcher.NewMatcher mp) = None
         /\ filtermatcher.callMatch (fst (filtermatcher.NewMatcher mp)) attrs resource
              {| pcommon.Name := "lib-a"; pcommon.Version := version |}
            = filtermatcher.Returns true
         /\ filtermatcher.callMatch (fst (filtermatcher.NewMatcher mp)) attrs resource
              {| pcommon.Name := "lib-b"; pcommon.Version := version |}
            = filtermatcher.Returns false)
  /\ (forall attrs resource version,
         let mp := Samples.oneLibrary Samples.regexpConfig "lib-a" None in
         snd (filtermatcher.NewMatcher (E:=MiniRE2.engine) mp) = None
         /\ filtermatcher.callMatch
              (fst (filtermatcher.NewMatcher (E:=MiniRE2.engine) mp)) attrs resource
              {| pcommon.Name := "lib-a"; pcommon.Version := version |}
            = filtermatcher.Returns true
         /\ filtermatcher.callMatch
              (fst (filtermatcher.NewMatcher (E:=MiniRE2.engine) mp)) attrs resource
              {| pcommon.Name := "lib-b"; pcommon.Version := version |}
            = filtermatcher.Returns false).
Proof.
  split; [exact callMatch_cons|]. split; [|split].
  - intros mp m Hnew. apply NewMatcher_OK in Hnew as (Hlibs & _).
    induction Hlibs as [|l mt ls ms [(n & _ & Hn) Hv] _ IH]; constructor;
      [|exact IH].
    split; [by exists n|].
    destruct (filterconfig.Version l) as [v|].
    + destruct Hv as (f & _ & ->). by split.
    + by rewrite Hv.
  - intros attrs resource version mp.
    assert (filtermatcher.NewMatcher mp
            = ({| filtermatcher.libraries :=
                    [{| filtermatcher.Name :=
                          Some (filterset.StrictSet (list_to_set ["lib-a"]));
                        filtermatcher.Version := None |}];
                  filtermatcher.attributes := None;
                  filtermatcher.resources := None |}, None)) as -> by reflexivity.
    proj_simpl. rewrite !callMatch_cons, !Matches_strict_singleton.
    proj_simpl. rewrite callMatch_no_library. by repeat split.
  - intros attrs resource version mp.
    unfold filtermatcher.callMatch. by vm_compute.
Qed.

Lemma libraries_checked_in_order_witness :
  filtermatcher.NewMatcher (E:=MiniRE2.engine)
    (Samples.oneLibrary Samples.regexpConfig "lib-a" (Some "^1\.")) 
  = (fst (filtermatcher.NewMatcher (E:=MiniRE2.engine)
            (Samples.oneLibrary Samples.regexpConfig "lib-a" (Some "^1\."))), None)
  /\ Forall2 (fun library matcher =>
                is_Some (filtermatcher.Name matcher)
                /\ (filterconfig.Version library = None
                    <-> filtermatcher.Version matcher = None))
             (filterconfig.Libraries
                (Samples.oneLibrary Samples.regexpConfig "lib-a" (Some "^1\.")))
             (filtermatcher.libraries
                (fst (filtermatcher.NewMatcher (E:=MiniRE2.engine)
                        (Samples.oneLibrary Samples.regexpConfig "lib-a"
                           (Some "^1\."))))).
Proof.
  split; [reflexivity|].
  apply (proj1 (proj2 (libraries_checked_in_order (E:=MiniRE2.engine)))).
  reflexivity.
Defined.

Lemma resource_gate_rejects_witness :
  filtermatcher.AttributesMatcher_Match
    (filtermatcher.attributes
       (fst (filtermatcher.NewMatcher (E:=MiniRE2.engine) Samples.guarana)))
    Samples.withStatus = true
  /\ filtermatcher.callMatch
       (fst (filtermatcher.NewMatcher (E:=MiniRE2.engine) Samples.guarana))
       Samples.withStatus Samples.otherHost Samples.scopeA
     = filtermatcher.Returns false.
Proof.
  split; [vm_compute; reflexivity|].
  apply (resource_gate_rejects (E:=MiniRE2.engine) Samples.guarana
           (fst (filtermatcher.NewMatcher (E:=MiniRE2.engine) Samples.guarana))
           Samples.withStatus Samples.otherHost Samples.scopeA).
  - reflexivity.
  - discriminate.
  - discriminate.
  - vm_compute; reflexivity.
Defined.

(** C9, as amended.  A version that is present, the empty string included,
    is compiled into a version filter and [Match] applies it; only a
    version that is absent leaves the version filter nil.  What the
    empty-string filter accepts depends on the strategy.  Under STRICT it
    accepts exactly the scopes whose version is the empty string, so that
    there only the constraint with no version accepts every version.
    Under REGEXP, when the empty pattern compiles to an expression that
    every text matches, the constraint with the empty-string version gives
    on every input the outcome of the constraint with no version. *)
Theorem empty_version_is_compiled {E : regexp.Engine} :
  (forall mp m,
      filtermatcher.NewMatcher mp = (m, None) ->
      Forall2 (fun library matcher =>
                 match filterconfig.Version library with
                 | None => filtermatcher.Version matcher = None
                 | Some v =>
                     exists f,
                       filterset.CreateFilterSet [v] (filterconfig.Config mp) = OK f
                       /\ filtermatcher.Version matcher = Some f
                 end)
              (filterconfig.Libraries mp) (filtermatcher.libraries m))
  /\ (forall name attrs resource library,
         let mp := Samples.oneLibrary Samples.strictConfig name (Some EmptyString) in
         filtermatcher.NewMatcher mp
         = ({| filtermatcher.libraries :=
                 [{| filtermatcher.Name :=
                       Some (filterset.StrictSet (list_to_set [name]));
                     filtermatcher.Version :=
                       Some (filterset.StrictSet (list_to_set [EmptyString])) |}];
               filtermatcher.attributes := None;
               filtermatcher.resources := None |}, None)
         /\ filtermatcher.callMatch (fst (filtermatcher.NewMatcher mp))
              attrs resource library
            = filtermatcher.Returns
                (bool_decide (pcommon.Name library = name)
                 && bool_decide (pcommon.Version library = EmptyString)))
  /\ (forall name attrs resource library,
         let mp := Samples.oneLibrary Samples.strictConfig name None in
         filtermatcher.NewMatcher mp
         = ({| filtermatcher.libraries :=
                 [{| filtermatcher.Name :=
                       Some (filterset.StrictSet (list_to_set [name]));
                     filtermatcher.Version := None |}];
               filtermatcher.attributes := None;
               filtermatcher.resources := None |}, None)
         /\ filtermatcher.callMatch (fst (filtermatcher.NewMatcher mp))
              attrs resource library
            = filtermatcher.Returns (bool_decide (pcommon.Name library = name)))
  /\ (forall name attrs resource library,
         (exists r, regexp.Compile EmptyString = OK r
                    /\ forall v, regexp.MatchString r v = true) ->
         filtermatcher.callMatch
           (fst (filtermatcher.NewMatcher
                   (Samples.oneLibrary Samples.regexpConfig name
                      (Some EmptyString))))
           attrs resource library
         = filtermatcher.callMatch
             (fst (filtermatcher.NewMatcher
                     (Samples.oneLibrary Samples.regexpConfig name None)))
             attrs resource library).
Proof.
  split; [|split; [|split]].
  - intros mp m Hnew. apply NewMatcher_OK in Hnew as (Hlibs & _).
    induction Hlibs as [|l mt ls ms [_ Hv] _ IH]; constructor; [|exact IH].
    exact Hv.
  - intros name attrs resource library mp.
    assert (filtermatcher.NewMatcher mp
            = ({| filtermatcher.libraries :=
                    [{| filtermatcher.Name :=
                          Some (filterset.StrictSet (list_to_set [name]));
                        filtermatcher.Version :=
                          Some (filterset.StrictSet (list_to_set [EmptyString])) |}];
                  filtermatcher.attributes := None;
                  filtermatcher.resources := None |}, None)) as -> by reflexivity.
    split; [reflexivity|]. proj_simpl.
    rewrite callMatch_cons, !Matches_strict_singleton, callMatch_no_library.
    by do 2 case_bool_decide.
  - intros name attrs resource library mp.
    assert (filtermatcher.NewMatcher mp
            = ({| filtermatcher.libraries :=
                    [{| filtermatcher.Name :=
                          Some (filterset.StrictSet (list_to_set [name]));
                        filtermatcher.Version := None |}];
                  filtermatcher.attributes := None;
                  filtermatcher.resources := None |}, None)) as -> by reflexivity.
    split; [reflexivity|]. proj_simpl.
    rewrite callMatch_cons, !Matches_strict_singleton, callMatch_no_library.
    by case_bool_decide.
  - intros name attrs resource library (r & Hr & Hall).
    unfold filtermatcher.NewMatcher, Samples.oneLibrary. proj_simpl.
    cbn [filterconfig.Config filterconfig.Libraries filterconfig.Attributes
         filterconfig.Resources filtermatcher.newLibraryMatchers
         filterconfig.Name filterconfig.Version].
    unfold filterset.CreateFilterSet.
    cbn [Samples.regexpConfig filterset.Config_MatchType filterset.compileAll].
    rewrite Hr. run_result.
    destruct (regexp.Compile name) as [rn|]; simpl; [|reflexivity].
    rewrite !callMatch_cons. proj_simpl.
    destruct (filterset.Matches _ (pcommon.Name library)); [|reflexivity].
    unfold filterset.Matches at 1. simpl. by rewrite Hall.
Qed.

(** The empty pattern of the concrete engine: every text matches it. *)
Lemma matchString_Eps text : MiniRE2.matchString MiniRE2.Eps text = true.
Proof.
  unfold MiniRE2.matchString.
  by destruct (list_ascii_of_string text).
Qed.

Lemma empty_version_is_compiled_witness :
  filtermatcher.NewMatcher (E:=MiniRE2.engine)
    (Samples.oneLibrary Samples.regexpConfig "lib-a" (Some EmptyString))
  = (fst (filtermatcher.NewMatcher (E:=MiniRE2.engine)
            (Samples.oneLibrary Samples.regexpConfig "lib-a" (Some EmptyString))),
     None)
  /\ Forall2 (fun library matcher =>
                match filterconfig.Version library with
                | None => filtermatcher.Version matcher = None
                | Some v =>
                    exists f,
                      filterset.CreateFilterSet (E:=MiniRE2.engine) [v]
                        Samples.regexpConfig = OK f
                      /\ filtermatcher.Version matcher = Some f
                end)
             (filterconfig.Libraries
                (Samples.oneLibrary Samples.regexpConfig "lib-a" (Some EmptyString)))
             (filtermatcher.libraries
                (fst (filtermatcher.NewMatcher (E:=MiniRE2.engine)
                        (Samples.oneLibrary Samples.regexpConfig "lib-a"
                           (Some EmptyString)))))
  /\ regexp.Compile (Engine:=MiniRE2.engine) EmptyString = OK MiniRE2.Eps
  /\ filtermatcher.callMatch
       (fst (filtermatcher.NewMatcher (E:=MiniRE2.engine)
               (Samples.oneLibrary Samples.regexpConfig "lib-a"
                  (Some EmptyString))))
       Samples.withStatus Samples.otherHost Samples.scopeA
     = filtermatcher.callMatch
         (fst (filtermatcher.NewMatcher (E:=MiniRE2.engine)
                 (Samples.oneLibrary Samples.regexpConfig "lib-a" None)))
         Samples.withStatus Samples.otherHost Samples.scopeA.
Proof.
  split; [reflexivity|]. split.
  - apply (proj1 (empty_version_is_compiled (E:=MiniRE2.engine))
             (Samples.oneLibrary Samples.regexpConfig "lib-a" (Some EmptyString))).
    reflexivity.
  - split; [reflexivity|].
    apply (proj2 (proj2 (proj2 (empty_version_is_compiled (E:=MiniRE2.engine))))
             "lib-a" Samples.withStatus Samples.otherHost Samples.scopeA).
    exists MiniRE2.Eps. split; [reflexivity | exact matchString_Eps].
Defined.

(** C9, as first stated, fails under REGEXP: the library constraint below
    has a version that is present, the empty string, and still accepts
    every scope version, as the constraint with no version does. *)
Lemma empty_version_regexp_counterexample :
  filterconfig.Version
    {| filterconfig.Name := "lib-a"; filterconfig.Version := Some EmptyString |}
  <> None
  /\ filtermatcher.NewMatcher (E:=MiniRE2.engine)
       (Samples.oneLibrary Samples.regexpConfig "lib-a" (Some EmptyString))
     = ({| filtermatcher.libraries :=
             [{| filtermatcher.Name :=
                   Some (filterset.RegexpSet (E:=MiniRE2.engine)
                           [MiniRE2.Cat (MiniRE2.Lit "l")
                              (MiniRE2.Cat (MiniRE2.Lit "i")
                                 (MiniRE2.Cat (MiniRE2.Lit "b")
                                    (MiniRE2.Cat (MiniRE2.Lit "-")
                                       (MiniRE2.Lit "a"))))]);
                 filtermatcher.Version :=
                   Some (filterset.RegexpSet (E:=MiniRE2.engine) [MiniRE2.Eps]) |}];
           filtermatcher.attributes := None;
           filtermatcher.resources := None |}, None)
  /\ filtermatcher.callMatch
       (fst (filtermatcher.NewMatcher (E:=MiniRE2.engine)
               (Samples.oneLibrary Samples.regexpConfig "lib-a"
                  (Some EmptyString))))
       ∅ Samples.emptyResource
       {| pcommon.Name := "lib-a"; pcommon.Version := "1.2.3" |}
     = filtermatcher.Returns true
  /\ (forall version,
         filtermatcher.callMatch
           (fst (filtermatcher.NewMatcher (E:=MiniRE2.engine)
                   (Samples.oneLibrary Samples.regexpConfig "lib-a"
                      (Some EmptyString))))
           ∅ Samples.emptyResource
           {| pcommon.Name := "lib-a"; pcommon.Version := version |}
         = filtermatcher.Returns true).
Proof.
  split; [discriminate|]. split; [reflexivity|]. split; [vm_compute; reflexivity|].
  intros version.
  change (fst (filtermatcher.NewMatcher (E:=MiniRE2.engine)
                 (Samples.oneLibrary Samples.regexpConfig "lib-a"
                    (Some EmptyString))))
    with {| filtermatcher.libraries :=
              [{| filtermatcher.Name :=
                    Some (filterset.RegexpSet (E:=MiniRE2.engine)
                            [MiniRE2.Cat (MiniRE2.Lit "l")
                               (MiniRE2.Cat (MiniRE2.Lit "i")
                                  (MiniRE2.Cat (MiniRE2.Lit "b")
                                     (MiniRE2.Cat (MiniRE2.Lit "-")
                                        (MiniRE2.Lit "a"))))]);
                  filtermatcher.Version :=
                    Some (filterset.RegexpSet (E:=MiniRE2.engine) [MiniRE2.Eps]) |}];
            filtermatcher.attributes := None;
            filtermatcher.resources := None |}.
  rewrite callMatch_cons, callMatch_no_library.
  cbn [pcommon.Name pcommon.Version].
  assert (filterset.Matches (E:=MiniRE2.engine)
            (filterset.RegexpSet (E:=MiniRE2.engine) [MiniRE2.Eps]) version = true)
    as -> by (simpl; by rewrite matchString_Eps).
  reflexivity.
Qed.

(* ===================================================================== *)
(** ** Construction failures *)
(* ===================================================================== *)

(** C5.  When a configured pattern does not compile, [NewMatcher] returns
    the zero matcher together with an error that wraps the cause under a
    message naming the field that failed; and whenever [NewMatcher]
    returns an error at all, the matcher it returns is the zero matcher. *)
Theorem NewMatcher_fails_atomically {E : regexp.Engine} mp :
  (failsToCompile mp ->
   exists msg cause,
     filtermatcher.NewMatcher mp
     = (filtermatcher.zeroPropertiesMatcher, Some (ErrWrap msg cause))
     /\ Unwrap (ErrWrap msg cause) = Some cause
     /\ identifiesField mp msg cause)
  /\ (forall m e,
         filtermatcher.NewMatcher mp = (m, Some e) ->
         m = filtermatcher.zeroPropertiesMatcher /\ failsToCompile mp).
Proof.
  split.
  - intros Hbad. apply NewMatcher_fails in Hbad as [e He].
    destruct (filtermatcher.NewMatcher mp) as [m oe] eqn:Hnew. simpl in He.
    subst oe. apply NewMatcher_Err in Hnew as (-> & msg & cause & -> & Hid).
    by exists msg, cause.
  - intros m e Hnew.
    apply NewMatcher_Err in Hnew as (-> & msg & cause & -> & Hid).
    split; [reflexivity|]. unfold failsToCompile.
    destruct Hid as [(_ & l & Hl & Hc)|[(_ & l & v & Hl & Hv & Hc)
                     |[(_ & Hc)|(_ & Hc)]]].
    + left. exists l. split; [exact Hl|]. left. by rewrite Hc.
    + left. exists l. split; [exact Hl|]. right. exists v. by rewrite Hc.
    + right. left. split; [|by rewrite Hc].
      intros Hnil. by rewrite Hnil in Hc.
    + right. right. split; [|by rewrite Hc].
      intros Hnil. by rewrite Hnil in Hc.
Qed.

Lemma NewMatcher_fails_atomically_witness :
  failsToCompile (E:=MiniRE2.engine) Samples.badLibraryName
  /\ filtermatcher.NewMatcher (E:=MiniRE2.engine) Samples.badLibraryName
     = (filtermatcher.zeroPropertiesMatcher,
        Some (ErrWrap "error creating library name filters"
                (CompilationError "(["
                   (ErrNew "error parsing regexp: (["))))
  /\ exists msg cause,
       filtermatcher.NewMatcher (E:=MiniRE2.engine) Samples.badLibraryName
       = (filtermatcher.zeroPropertiesMatcher, Some (ErrWrap msg cause))
       /\ Unwrap (ErrWrap msg cause) = Some cause
       /\ identifiesField (E:=MiniRE2.engine) Samples.badLibraryName msg cause.
Proof.
  assert (failsToCompile (E:=MiniRE2.engine) Samples.badLibraryName) as Hbad.
  { left. eexists. split; [apply list_elem_of_here|]. left. reflexivity. }
  split; [exact Hbad|]. split; [reflexivity|].
  exact (proj1 (NewMatcher_fails_atomically (E:=MiniRE2.engine)
                  Samples.badLibraryName) Hbad).
Defined.

(* ===================================================================== *)
(** ** Filter sets under REGEXP *)
(* ===================================================================== *)

Section RegexpFilterSet.
Context {E : regexp.Engine}.

Lemma compileAll_OK patterns : forall rs,
  filterset.compileAll patterns = OK rs ->
  Forall2 (fun p r => regexp.Compile p = OK r) patterns rs.
Proof.
  induction patterns as [|p rest IH]; intros rs; simpl.
  - intros [= <-]. constructor.
  - destruct (regexp.Compile p) as [r|] eqn:Hp; [|discriminate].
    run_result.
    destruct (filterset.compileAll rest) as [rs'|]; [|discriminate].
    intros [= <-]. constructor; [exact Hp | by apply IH].
Qed.

Lemma existsb_compiled (f : regexp.Regexp -> bool) patterns rs :
  Forall2 (fun p r => regexp.Compile p = OK r) patterns rs ->
  existsb f rs = true
  <-> exists p r, p ∈ patterns /\ regexp.Compile p = OK r /\ f r = true.
Proof.
  induction 1 as [|p r ps rs Hpr _ IH]; simpl.
  - split; [discriminate|]. intros (p & r & Hp & _). by apply elem_of_nil in Hp.
  - rewrite orb_true_iff, IH. split.
    + intros [Hf|(p' & r' & Hp' & Hc & Hf)].
      * exists p, r. split; [apply list_elem_of_here | done].
      * exists p', r'. split; [by apply list_elem_of_further | done].
    + intros (p' & r' & Hp' & Hc & Hf).
      apply elem_of_cons in Hp' as [->|Hp'].
      * left. rewrite Hpr in Hc. by injection Hc as ->.
      * right. by exists p', r'.
Qed.

Lemma Matches_regexp patterns config fs value :
  filterset.Config_MatchType config = filterset.Regexp ->
  filterset.CreateFilterSet patterns config = OK fs ->
  filterset.Matches fs value = true
  <-> exists p r, p ∈ patterns /\ regexp.Compile p = OK r
                  /\ regexp.MatchString r value = true.
Proof.
  unfold filterset.CreateFilterSet. intros ->. run_result.
  destruct (filterset.compileAll patterns) as [rs|] eqn:Hrs; [|discriminate].
  intros [= <-]. simpl. apply existsb_compiled. by apply compileAll_OK.
Qed.

End RegexpFilterSet.

Section MiniSearch.

(** The positions of a text are its suffixes. *)
Lemma tails_spec s s' : s' ∈ MiniRE2.tails s <-> exists pre, s = pre ++ s'.
Proof.
  induction s as [|c t IH]; simpl.
  - rewrite list_elem_of_singleton. split.
    + intros ->. by exists [].
    + intros (pre & H). symmetry in H. by apply app_eq_nil in H as [_ ->].
  - rewrite elem_of_cons, IH. split.
    + intros [->|(pre & ->)]; [by exists [] | by exists (c :: pre)].
    + intros ([|c' pre] & H); simpl in H.
      * by left.
      * right. injection H as _ ->. by exists pre.
Qed.

(** The search of the concrete engine succeeds iff the expression
    matches at some position of the text. *)
Lemma matchString_anywhere r text :
  MiniRE2.matchString r text = true
  <-> exists pre suf,
        list_ascii_of_string text = pre ++ suf
        /\ MiniRE2.matchesAt r (List.length (list_ascii_of_string text)) suf = true.
Proof.
  unfold MiniRE2.matchString. rewrite existsb_exists. split.
  - intros (suf & Hin & Hm). apply list_elem_of_In, tails_spec in Hin as (pre & Hpre).
    by exists pre, suf.
  - intros (pre & suf & Hpre & Hm). exists suf. split; [|exact Hm].
    apply list_elem_of_In, tails_spec. by exists pre.
Qed.

End MiniSearch.

(** C7.  A filter set built under REGEXP matches a value iff the search of
    at least one of its compiled patterns succeeds on that value.  With the
    concrete engine the search looks for a match at any position of the
    text: the pattern "^abc" finds one in "abcdef" and none in "xabc", and
    the pattern "abc" finds one inside "xabcx". *)
Theorem regexp_Matches_is_search :
  (forall (E : regexp.Engine) patterns config fs value,
      filterset.Config_MatchType config = filterset.Regexp ->
      filterset.CreateFilterSet patterns config = OK fs ->
      filterset.Matches fs value = true
      <-> exists p r, p ∈ patterns /\ regexp.Compile p = OK r
                      /\ regexp.MatchString r value = true)
  /\ (forall r text,
         regexp.MatchString (Engine:=MiniRE2.engine) r text = true
         <-> exists pre suf,
               list_ascii_of_string text = pre ++ suf
               /\ MiniRE2.matchesAt r (List.length (list_ascii_of_string text)) suf
                  = true)
  /\ (exists fs,
         filterset.CreateFilterSet (E:=MiniRE2.engine) ["^abc"] Samples.regexpConfig
         = OK fs
         /\ filterset.Matches fs "abcdef" = true
         /\ filterset.Matches fs "xabc" = false)
  /\ (exists fs,
         filterset.CreateFilterSet (E:=MiniRE2.engine) ["abc"] Samples.regexpConfig
         = OK fs
         /\ filterset.Matches fs "xabcx" = true
         /\ filterset.Matches fs "xabc" = true
         /\ filterset.Matches fs "ab" = false).
Proof.
  split; [|split; [|split]].
  - intros E patterns config fs value. apply Matches_regexp.
  - exact matchString_anywhere.
  - eexists. split; [reflexivity|]. split; reflexivity.
  - eexists. split; [reflexivity|]. repeat split; reflexivity.
Qed.

Lemma regexp_Matches_is_search_witness :
  filterset.Config_MatchType Samples.regexpConfig = filterset.Regexp
  /\ (filterset.Matches (E:=MiniRE2.engine)
        (filterset.RegexpSet (E:=MiniRE2.engine)
           [MiniRE2.Cat MiniRE2.Bot
              (MiniRE2.Cat (MiniRE2.Lit "a")
                 (MiniRE2.Cat (MiniRE2.Lit "b") (MiniRE2.Lit "c")));
            MiniRE2.Cat (MiniRE2.Lit "z") MiniRE2.Eot])
        "abcdef" = true
      <-> exists p r, p ∈ ["^abc"; "z$"]
                      /\ regexp.Compile (Engine:=MiniRE2.engine) p = OK r
                      /\ regexp.MatchString r "abcdef" = true).
Proof.
  split; [reflexivity|].
  apply (proj1 regexp_Matches_is_search MiniRE2.engine ["^abc"; "z$"]
           Samples.regexpConfig); reflexivity.
Defined.

(* ===================================================================== *)
(** ** [IsMatch] *)
(* ===================================================================== *)

(** C10.  [IsMatch] returns an error, and no function, iff the pattern does
    not compile; the error wraps the compiler's.  Otherwise it returns a
    function which, for every context: returns the error of [target.Get]
    when there is one; returns false without error when the value is nil
    or is not a string; and otherwise returns whether the compiled pattern
    finds a match in the string. *)
Theorem IsMatch_spec {E : regexp.Engine} {Other K : Type}
    (target : ottl.Getter Other K) (pattern : string) :
  (is_Some (snd (ottlfuncs.IsMatch target pattern))
   <-> is_err (regexp.Compile pattern) = true)
  /\ (forall cause,
         regexp.Compile pattern = Err cause ->
         ottlfuncs.IsMatch target pattern
         = (None,
            Some (ErrWrap
                    "the pattern supplied to IsMatch is not a valid regexp pattern"
                    cause)))
  /\ (forall compiledPattern,
         regexp.Compile pattern = OK compiledPattern ->
         exists f,
           ottlfuncs.IsMatch target pattern = (Some f, None)
           /\ forall ctx,
                (forall val err, target ctx = (val, Some err) ->
                                 f ctx = (None, Some err))
                /\ (target ctx = (None, None) ->
                    f ctx = (Some (ottl.DBool false), None))
                /\ (forall d, target ctx = (Some d, None) ->
                              (forall valStr, d <> ottl.DString valStr) ->
                              f ctx = (Some (ottl.DBool false), None))
                /\ (forall valStr,
                       target ctx = (Some (ottl.DString valStr), None) ->
                       f ctx = (Some (ottl.DBool
                                        (regexp.MatchString compiledPattern valStr)),
                                None))).
Proof.
  unfold ottlfuncs.IsMatch. split; [|split].
  - destruct (regexp.Compile pattern); simpl; split; try done;
      by intros [? ?].
  - by intros cause ->.
  - intros compiledPattern ->. eexists. split; [reflexivity|].
    intros ctx. unfold ottlfuncs.isMatchFunc. repeat split.
    + by intros val err ->.
    + by intros ->.
    + intros d -> Hd. destruct d as [valStr| |]; [|done..].
      by destruct (Hd valStr).
    + by intros valStr ->.
Qed.

Lemma IsMatch_spec_witness :
  regexp.Compile (Engine:=MiniRE2.engine) "^abc"
  = OK (MiniRE2.Cat MiniRE2.Bot
          (MiniRE2.Cat (MiniRE2.Lit "a")
             (MiniRE2.Cat (MiniRE2.Lit "b") (MiniRE2.Lit "c"))))
  /\ exists f,
       ottlfuncs.IsMatch (E:=MiniRE2.engine) Samples.getter "^abc" = (Some f, None)
       /\ f 0 = (Some (ottl.DBool true), None)
       /\ f 1 = (Some (ottl.DBool false), None)
       /\ f 2 = (Some (ottl.DBool false), None)
       /\ f 3 = (None, Some (ErrNew "no such path")).
Proof.
  split; [reflexivity|].
  destruct (proj2 (proj2 (IsMatch_spec (E:=MiniRE2.engine) Samples.getter "^abc"))
              _ eq_refl) as (f & Hf & Hctx).
  exists f. split; [exact Hf|].
  split; [exact (proj2 (proj2 (proj2 (Hctx 0))) "abcdef" eq_refl)|].
  split; [exact (proj1 (proj2 (Hctx 1)) eq_refl)|].
  split; [|exact (proj1 (Hctx 3) None (ErrNew "no such path") eq_refl)].
  apply (proj1 (proj2 (proj2 (Hctx 2))) (ottl.DOther 42%Z) eq_refl).
  discriminate.
Defined.

(* ===================================================================== *)
(** ** Witnesses and worked examples *)
(* ===================================================================== *)

Lemma Match_is_gated_conjunction_witness :
  filtermatcher.NewMatcher (E:=MiniRE2.engine) Samples.guarana
  = (fst (filtermatcher.NewMatcher (E:=MiniRE2.engine) Samples.guarana), None)
  /\ filtermatcher.callMatch
       (fst (filtermatcher.NewMatcher (E:=MiniRE2.engine) Samples.guarana))
       Samples.withStatus Samples.otherHost Samples.scopeA
     = filtermatcher.Returns
         (forallb (libraryAccepts Samples.scopeA)
            (filtermatcher.libraries
               (fst (filtermatcher.NewMatcher (E:=MiniRE2.engine) Samples.guarana)))
          && resourcesAccept
               (fst (filtermatcher.NewMatcher (E:=MiniRE2.engine) Samples.guarana))
               Samples.otherHost
          && filtermatcher.AttributesMatcher_Match
               (filtermatcher.attributes
                  (fst (filtermatcher.NewMatcher (E:=MiniRE2.engine)
                          Samples.guarana)))
               Samples.withStatus).
Proof.
  split; [reflexivity|].
  exact (proj1 (proj2
           (Match_is_gated_conjunction (E:=MiniRE2.engine) Samples.guarana
              (fst (filtermatcher.NewMatcher (E:=MiniRE2.engine) Samples.guarana))
              Samples.withStatus Samples.otherHost Samples.scopeA eq_refl))).
Defined.

Lemma empty_spec_matches_everything_witness :
  exists m,
    filtermatcher.NewMatcher (E:=MiniRE2.engine)
      (Samples.emptySpec Samples.strictConfig) = (m, None)
    /\ filtermatcher.callMatch m ∅ Samples.emptyResource Samples.emptyScope
       = filtermatcher.Returns true.
Proof.
  apply (empty_spec_matches_everything (E:=MiniRE2.engine)
           (Samples.emptySpec Samples.strictConfig) ∅ Samples.emptyResource
           Samples.emptyScope); reflexivity.
Defined.

Lemma Match_total_witness :
  filtermatcher.NewMatcher (E:=MiniRE2.engine)
    (Samples.oneLibrary Samples.regexpConfig "^lib-" (Some "^1\."))
  = (fst (filtermatcher.NewMatcher (E:=MiniRE2.engine)
            (Samples.oneLibrary Samples.regexpConfig "^lib-" (Some "^1\."))), None)
  /\ exists b,
       filtermatcher.callMatch
         (fst (filtermatcher.NewMatcher (E:=MiniRE2.engine)
                 (Samples.oneLibrary Samples.regexpConfig "^lib-" (Some "^1\."))))
         Samples.withStatus Samples.otherHost Samples.scopeA
       = filtermatcher.Returns b.
Proof.
  split; [reflexivity|].
  apply (Match_total (E:=MiniRE2.engine)
           (Samples.oneLibrary Samples.regexpConfig "^lib-" (Some "^1\."))
           (fst (filtermatcher.NewMatcher (E:=MiniRE2.engine)
                   (Samples.oneLibrary Samples.regexpConfig "^lib-" (Some "^1\."))))
           Samples.withStatus Samples.otherHost Samples.scopeA).
  reflexivity.
Defined.

Example mini_compile_anchor :
  MiniRE2.compile "^abc"
  = OK (MiniRE2.Cat MiniRE2.Bot
          (MiniRE2.Cat (MiniRE2.Lit "a") (MiniRE2.Cat (MiniRE2.Lit "b") (MiniRE2.Lit "c")))).
Proof. reflexivity. Qed.

Example mini_compile_group :
  MiniRE2.compile "(a|bc)*d$"
  = OK (MiniRE2.Cat
          (MiniRE2.Star (MiniRE2.Alt (MiniRE2.Lit "a")
                                     (MiniRE2.Cat (MiniRE2.Lit "b") (MiniRE2.Lit "c"))))
          (MiniRE2.Cat (MiniRE2.Lit "d") MiniRE2.Eot)).
Proof. reflexivity. Qed.

Example mini_compile_invalid : is_err (MiniRE2.compile "([") = true.
Proof. reflexivity. Qed.

Example mini_search :
  match MiniRE2.compile "(a|bc)*d$" with
  | OK r => (MiniRE2.matchString r "xxabcad", MiniRE2.matchString r "abcade")
  | Err _ => (false, true)
  end = (true, false).
Proof. reflexivity. Qed.


(** The empty pattern is a regular expression that every text matches:
    under REGEXP an empty-string version accepts any scope version. *)
Example regexp_empty_version_accepts :
  filtermatcher.callMatch
    (fst (filtermatcher.NewMatcher (E:=MiniRE2.engine)
            (Samples.oneLibrary Samples.regexpConfig "lib-a" (Some EmptyString))))
    ∅ Samples.emptyResource Samples.scopeA
  = filtermatcher.Returns true.
Proof. vm_compute. reflexivity. Qed.

(** The resource gate of the sample: rejected for the resource without
    [host.name], accepted with the right host. *)
Example guarana_accepts_right_host :
  filtermatcher.callMatch
    (fst (filtermatcher.NewMatcher (E:=MiniRE2.engine) Samples.guarana))
    Samples.withStatus
    {| pcommon.Attributes := {[ "host.name" := pcommon.ValueStr "guarana" ]} |}
    Samples.scopeA
  = filtermatcher.Returns true.
Proof. vm_compute. reflexivity. Qed.

(* ===================================================================== *)
(** ** The load scraper: [start], [shutdown], [scrape] *)
(* ===================================================================== *)

Section LoadScraperFacts.
Context {H : loadscraper.Host}.

Lemma scrape_skip s w :
  loadscraper.skipScrape s = true ->
  loadscraper.scrape s w
  = (filtermatcher.Returns (loadscraper.pmetric_NewMetrics, None), s, w).
Proof. unfold loadscraper.scrape. by intros ->. Qed.

Lemma scrapes_skip n s w :
  loadscraper.skipScrape s = true ->
  loadscraper.scrapes n s w
  = (replicate n (filtermatcher.Returns (loadscraper.pmetric_NewMetrics, None)),
     s, w).
Proof.
  intros Hs. induction n as [|n IH]; [reflexivity|].
  simpl. by rewrite (scrape_skip s w Hs), IH.
Qed.

Lemma start_skipScrape ctx s w :
  loadscraper.skipScrape (snd (fst (loadscraper.start ctx s w))) = true
  <-> loadscraper.skipScrape s = true
      \/ (snd (fst (loadscraper.bootTime s w)) = None
          /\ exists e, samplerAnswer ctx s w = Some e
               /\ loadscraper.errors_As loadscraper.isPerfCounterInitError e = true).
Proof.
  unfold loadscraper.start, samplerAnswer.
  destruct (loadscraper.bootTime s w) as [[bt [e0|]] w1]; simpl.
  - split; [by left|]. intros [Hs|[Hn _]]; [exact Hs | discriminate].
  - destruct (loadscraper.startSampling _ _ _) as [[e1|] e2]; simpl.
    + destruct (loadscraper.errors_As _ e1) eqn:Has; simpl.
      * split; [|done]. intros _. right. split; [done|]. by exists e1.
      * split; [by left|]. intros [Hs|[_ (e & [= <-] & He)]]; [exact Hs|].
        congruence.
    + split; [by left|]. by intros [Hs|[_ (e & He & _)]].
Qed.

End LoadScraperFacts.

(** X1.  [start] returns an error exactly when the boot time cannot be
    read, or when the sampler fails to start with an error whose chain
    holds no [PerfCounterInitError]; the error returned is that error
    itself, not a wrapped one. *)
Theorem start_error_iff {H : loadscraper.Host} ctx s w e :
  fst (fst (loadscraper.start ctx s w)) = Some e
  <-> snd (fst (loadscraper.bootTime s w)) = Some e
      \/ (snd (fst (loadscraper.bootTime s w)) = None
          /\ samplerAnswer ctx s w = Some e
          /\ loadscraper.errors_As loadscraper.isPerfCounterInitError e = false).
Proof.
  unfold loadscraper.start, samplerAnswer.
  destruct (loadscraper.bootTime s w) as [[bt [e0|]] w1]; simpl.
  - split; [by left|]. intros [He|[Hn _]]; [exact He | discriminate].
  - destruct (loadscraper.startSampling _ _ _) as [[e1|] e2]; simpl.
    + destruct (loadscraper.errors_As _ e1) eqn:Has; simpl.
      * split; [discriminate|]. intros [He|(_ & [= <-] & He)]; congruence.
      * split.
        -- intros [= <-]. by right.
        -- by intros [He|(_ & He & _)].
    + split; [discriminate|]. by intros [He|(_ & He & _)].
Qed.

(** X2.  Whatever [start] returns, it keeps the settings, the
    configuration and the two functions of the scraper; it never clears
    [skipScrape]; it touches the objects of the world only through
    [s.bootTime]; and it leaves the metrics builder alone exactly when the
    boot time could not be read: a [start] that fails on the sampler has
    already replaced the builder. *)
Theorem start_keeps {H : loadscraper.Host} ctx s w :
  let s' := snd (fst (loadscraper.start ctx s w)) in
  let w' := snd (loadscraper.start ctx s w) in
  loadscraper.settings s' = loadscraper.settings s
  /\ loadscraper.config s' = loadscraper.config s
  /\ loadscraper.bootTime s' = loadscraper.bootTime s
  /\ loadscraper.load s' = loadscraper.load s
  /\ (loadscraper.skipScrape s = true -> loadscraper.skipScrape s' = true)
  /\ loadscraper.avgStats w' = loadscraper.avgStats (snd (loadscraper.bootTime s w))
  /\ (is_Some (snd (fst (loadscraper.bootTime s w))) ->
      s' = s /\ w' = snd (loadscraper.bootTime s w))
  /\ (snd (fst (loadscraper.bootTime s w)) = None ->
      loadscraper.mb s'
      = Some (loadscraper.NewMetricsBuilder
                (loadscraper.Config_Metrics (loadscraper.config s))
                (loadscraper.settings_BuildInfo (loadscraper.settings s))
                (loadscraper.uint64_mul (fst (fst (loadscraper.bootTime s w)))
                   (10 ^ 9)))).
Proof.
  unfold loadscraper.start.
  destruct (loadscraper.bootTime s w) as [[bt [e0|]] w1]; simpl.
  - repeat split; try done.
  - destruct (loadscraper.startSampling _ _ _) as [[e1|] e2]; simpl;
      [destruct (loadscraper.errors_As _ e1); simpl|];
      repeat split; try done; by intros [? ?].
Qed.

(** X3.  The start time given to the metrics builder is the boot time in
    seconds times 10^9 in [uint64] arithmetic: it is the exact product
    for boot times up to 18446744073 seconds, and a wrapped value from
    18446744074 seconds on. *)
Theorem start_time_wraps {H : loadscraper.Host} ctx s w bt w1 :
  loadscraper.bootTime s w = ((bt, None), w1) ->
  (0 <= bt < 2 ^ 64)%Z ->
  exists ts,
    loadscraper.mb (snd (fst (loadscraper.start ctx s w)))
    = Some (loadscraper.NewMetricsBuilder
              (loadscraper.Config_Metrics (loadscraper.config s))
              (loadscraper.settings_BuildInfo (loadscraper.settings s)) ts)
    /\ (0 <= ts < 2 ^ 64)%Z
    /\ ((ts - bt * 10 ^ 9) mod 2 ^ 64 = 0)%Z
    /\ ((bt <= 18446744073)%Z <-> ts = (bt * 10 ^ 9)%Z).
Proof.
  intros Hbt Hrange. exists (loadscraper.uint64_mul bt (10 ^ 9)).
  split.
  { pose proof (start_keeps ctx s w) as Hk. simpl in Hk.
    rewrite Hbt in Hk. simpl in Hk. by apply Hk. }
  unfold loadscraper.uint64_mul.
  split; [apply Z.mod_pos_bound; lia|].
  split.
  { rewrite Zminus_mod_idemp_l, Z.sub_diag. reflexivity. }
  split.
  - intros Hle. apply Z.mod_small. lia.
  - intros Heq.
    pose proof (Z.mod_pos_bound (bt * 10 ^ 9) (2 ^ 64) ltac:(lia)) as Hb.
    rewrite Heq in Hb. lia.
Qed.

Lemma start_error_iff_witness :
  fst (fst (loadscraper.start (H:=LoadSamples.host) tt LoadSamples.noBootTime
              (LoadSamples.world true)))
  = Some (ErrNew "no boot time")
  <-> snd (fst (loadscraper.bootTime LoadSamples.noBootTime (LoadSamples.world true)))
      = Some (ErrNew "no boot time")
      \/ (snd (fst (loadscraper.bootTime LoadSamples.noBootTime
                      (LoadSamples.world true))) = None
          /\ samplerAnswer (H:=LoadSamples.host) tt LoadSamples.noBootTime
               (LoadSamples.world true) = Some (ErrNew "no boot time")
          /\ loadscraper.errors_As
               (loadscraper.isPerfCounterInitError (Host:=LoadSamples.host))
               (ErrNew "no boot time") = false).
Proof.
  exact (start_error_iff (H:=LoadSamples.host) tt LoadSamples.noBootTime
           (LoadSamples.world true) (ErrNew "no boot time")).
Defined.

Lemma start_keeps_witness :
  is_Some (snd (fst (loadscraper.bootTime LoadSamples.noBootTime
                       (LoadSamples.world true))))
  /\ snd (fst (loadscraper.start (H:=LoadSamples.host) tt LoadSamples.noBootTime
                 (LoadSamples.world true))) = LoadSamples.noBootTime
  /\ snd (loadscraper.start (H:=LoadSamples.host) tt LoadSamples.noBootTime
             (LoadSamples.world true))
     = snd (loadscraper.bootTime LoadSamples.noBootTime (LoadSamples.world true)).
Proof.
  assert (is_Some (snd (fst (loadscraper.bootTime LoadSamples.noBootTime
                               (LoadSamples.world true))))) as Hfail
    by (by eexists).
  split; [exact Hfail|].
  exact (proj1 (proj2 (proj2 (proj2 (proj2 (proj2 (proj2
           (start_keeps (H:=LoadSamples.host) tt LoadSamples.noBootTime
              (LoadSamples.world true)))))))) Hfail).
Defined.

Lemma start_time_wraps_witness :
  exists ts,
    loadscraper.mb
      (snd (fst (loadscraper.start (H:=LoadSamples.host) tt
                   (LoadSamples.started false) (LoadSamples.world true))))
    = Some (loadscraper.NewMetricsBuilder (Host:=LoadSamples.host) tt tt ts)
    /\ (0 <= ts < 2 ^ 64)%Z
    /\ ((ts - 1700000000 * 10 ^ 9) mod 2 ^ 64 = 0)%Z
    /\ ((1700000000 <= 18446744073)%Z <-> ts = (1700000000 * 10 ^ 9)%Z).
Proof.
  apply (start_time_wraps (H:=LoadSamples.host) tt (LoadSamples.started false)
           (LoadSamples.world true) 1700000000 (LoadSamples.world true)).
  - reflexivity.
  - lia.
Defined.

(** X4.  Once [skipScrape] is set, whether before this [start] or by it
    because the sampler reported a [PerfCounterInitError], it stays set:
    every later [scrape] returns empty metrics and no error and changes
    neither the scraper nor the world, and [shutdown] returns nil without
    calling [stopSampling], even when this [start] did start the sampler. *)
Theorem skip_is_permanent {H : loadscraper.Host} ctx s w :
  loadscraper.skipScrape s = true
  \/ (snd (fst (loadscraper.bootTime s w)) = None
      /\ exists e, samplerAnswer ctx s w = Some e
           /\ loadscraper.errors_As loadscraper.isPerfCounterInitError e = true) ->
  let s' := snd (fst (loadscraper.start ctx s w)) in
  loadscraper.skipScrape s' = true
  /\ forall n ctx' w',
       loadscraper.scrapes n s' w'
       = (replicate n (filtermatcher.Returns (loadscraper.pmetric_NewMetrics, None)),
          s', w')
       /\ loadscraper.shutdown ctx' s' w' = (None, w').
Proof.
  intros Hskip s'. apply start_skipScrape in Hskip. fold s' in Hskip.
  split; [exact Hskip|]. intros n ctx' w'. split.
  - by apply scrapes_skip.
  - unfold loadscraper.shutdown. by rewrite Hskip.
Qed.

Lemma skip_is_permanent_witness :
  fst (fst (loadscraper.start (H:=LoadSamples.host) tt (LoadSamples.started false)
              (LoadSamples.world false))) = None
  /\ loadscraper.scrapes 3
       (snd (fst (loadscraper.start (H:=LoadSamples.host) tt
                    (LoadSamples.started false) (LoadSamples.world false))))
       (LoadSamples.world true)
     = (replicate 3 (filtermatcher.Returns
                       (loadscraper.pmetric_NewMetrics (Host:=LoadSamples.host), None)),
        snd (fst (loadscraper.start (H:=LoadSamples.host) tt
                    (LoadSamples.started false) (LoadSamples.world false))),
        LoadSamples.world true).
Proof.
  split; [reflexivity|].
  apply (proj2 (skip_is_permanent (H:=LoadSamples.host) tt
                  (LoadSamples.started false) (LoadSamples.world false)
                  (or_intror (conj eq_refl
                     (ex_intro _ LoadSamples.initError (conj eq_refl eq_refl)))))
           3%nat tt (LoadSamples.world true)).
Defined.

(** X5.  [scrape] returns an error exactly when it is not skipping and
    [s.load] fails; the error is the partial scrape error over the three
    metrics that wraps the error of [s.load], the metrics returned with it
    are empty, and the scraper, its builder included, is unchanged. *)
Theorem scrape_error_iff {H : loadscraper.Host} s w m err :
  let loaded :=
    loadscraper.load s
      (loadscraper.set_env w (snd (loadscraper.time_Now (loadscraper.env w)))) in
  (fst (fst (loadscraper.scrape s w)) = filtermatcher.Returns (m, Some err)
   <-> loadscraper.skipScrape s = false
       /\ m = loadscraper.pmetric_NewMetrics
       /\ exists e, snd (fst loaded) = Some e
            /\ err = loadscraper.PartialScrapeError e 3)
  /\ (fst (fst (loadscraper.scrape s w)) = filtermatcher.Returns (m, Some err) ->
      snd (fst (loadscraper.scrape s w)) = s
      /\ snd (loadscraper.scrape s w) = snd loaded).
Proof.
  unfold loadscraper.scrape.
  destruct (loadscraper.skipScrape s); simpl.
  { split; [split|]; [discriminate | by intros [? _] | discriminate]. }
  destruct (loadscraper.time_Now _) as [now e1]; simpl.
  destruct (loadscraper.load s _) as [[avg [e|]] w2]; simpl.
  - split; [split|].
    + intros [= <- <-]. repeat split. by exists e.
    + by intros (_ & -> & e' & [= <-] & ->).
    + done.
  - destruct (avg ≫= _) as [[p v]|]; simpl.
    + destruct (loadscraper.mb s) as [mb0|]; simpl.
      * destruct (loadscraper.Emit _) as [metrics mb4]; simpl.
        split; [split|]; [discriminate | by intros (_ & _ & e' & ? & _)
                         | discriminate].
      * split; [split|]; [discriminate | by intros (_ & _ & e' & ? & _)
                         | discriminate].
    + split; [split|]; [discriminate | by intros (_ & _ & e' & ? & _)
                       | discriminate].
Qed.

Lemma scrape_error_iff_witness :
  fst (fst (loadscraper.scrape (H:=LoadSamples.host) LoadSamples.noLoad
              (LoadSamples.world true)))
  = filtermatcher.Returns
      (loadscraper.pmetric_NewMetrics (Host:=LoadSamples.host),
       Some (loadscraper.PartialScrapeError (ErrNew "no load") 3))
  /\ snd (fst (loadscraper.scrape (H:=LoadSamples.host) LoadSamples.noLoad
                 (LoadSamples.world true)))
     = LoadSamples.noLoad.
Proof.
  split; [reflexivity|].
  apply (proj2 (scrape_error_iff (H:=LoadSamples.host) LoadSamples.noLoad
                  (LoadSamples.world true)
                  (loadscraper.pmetric_NewMetrics (Host:=LoadSamples.host))
                  (loadscraper.PartialScrapeError (ErrNew "no load") 3))).
  reflexivity.
Defined.

(** X6.  [scrape] never changes the settings, the configuration,
    [skipScrape] or the two functions of the scraper, and it changes the
    metrics builder only in a call that returns metrics without an error;
    it changes an [AvgStat] object only when [CPUAverage] is set. *)
Theorem scrape_preserves {H : loadscraper.Host} s w :
  let o := fst (fst (loadscraper.scrape s w)) in
  let s' := snd (fst (loadscraper.scrape s w)) in
  let w' := snd (loadscraper.scrape s w) in
  let loaded :=
    loadscraper.load s
      (loadscraper.set_env w (snd (loadscraper.time_Now (loadscraper.env w)))) in
  loadscraper.settings s' = loadscraper.settings s
  /\ loadscraper.config s' = loadscraper.config s
  /\ loadscraper.skipScrape s' = loadscraper.skipScrape s
  /\ loadscraper.bootTime s' = loadscraper.bootTime s
  /\ loadscraper.load s' = loadscraper.load s
  /\ (loadscraper.mb s' <> loadscraper.mb s ->
      exists m, o = filtermatcher.Returns (m, None))
  /\ (loadscraper.skipScrape s = false ->
      loadscraper.env w' = loadscraper.env (snd loaded))
  /\ (loadscraper.skipScrape s = false ->
      loadscraper.CPUAverage (loadscraper.config s) = false ->
      w' = snd loaded).
Proof.
  unfold loadscraper.scrape.
  destruct (loadscraper.skipScrape s) eqn:Hs; simpl.
  { repeat split; try done; try (intros Hne; by destruct Hne). }
  destruct (loadscraper.time_Now _) as [now e1]; simpl.
  destruct (loadscraper.load s _) as [[avg [e|]] w2]; simpl.
  { repeat split; try done; try (intros Hne; by destruct Hne). }
  destruct (avg ≫= _) as [[p v]|]; simpl.
  2: { repeat split; try done; try (intros Hne; by destruct Hne). }
  destruct (loadscraper.mb s) as [mb0|] eqn:Hmb; simpl.
  - destruct (loadscraper.Emit _) as [metrics mb4]; simpl.
    repeat split; try done; try (by exists metrics);
      try (by destruct (loadscraper.CPUAverage _)); try (by intros _ ->).
  - repeat split; try done; try (intros Hne; by destruct Hne);
      try (by destruct (loadscraper.CPUAverage _)); try (by intros _ ->).
Qed.

Lemma scrape_preserves_witness :
  loadscraper.skipScrape (LoadSamples.started false) = false
  /\ loadscraper.CPUAverage (loadscraper.config (LoadSamples.started false)) = false
  /\ snd (loadscraper.scrape (H:=LoadSamples.host) (LoadSamples.started false)
            (LoadSamples.world true))
     = snd (loadscraper.load (LoadSamples.started false)
              (loadscraper.set_env (LoadSamples.world true)
                 (snd (loadscraper.time_Now (Host:=LoadSamples.host)
                         (loadscraper.env (LoadSamples.world true)))))).
Proof.
  split; [reflexivity|]. split; [reflexivity|].
  exact (proj2 (proj2 (proj2 (proj2 (proj2 (proj2 (proj2
           (scrape_preserves (H:=LoadSamples.host) (LoadSamples.started false)
              (LoadSamples.world true)))))))) eq_refl eq_refl).
Defined.

(** X7.  A [scrape] that is not skipping, whose [s.load] returns an object
    and whose builder is set, records the three averages in the order 1m,
    5m, 15m under one timestamp and returns what the builder emits.  With
    [CPUAverage] the recorded values are the loaded ones divided by the
    number of CPUs, and they are written back into the object that
    [s.load] returned; no other object is written, and the rest of the
    world is as [s.load] left it. *)
Theorem scrape_records {H : loadscraper.Host} s w now e1 p v w2 mb0 :
  loadscraper.skipScrape s = false ->
  loadscraper.time_Now (loadscraper.env w) = (now, e1) ->
  loadscraper.load s (loadscraper.set_env w e1) = ((Some p, None), w2) ->
  loadscraper.avgStats w2 !! p = Some v ->
  loadscraper.mb s = Some mb0 ->
  let v' := if loadscraper.CPUAverage (loadscraper.config s)
            then loadscraper.divideBy loadscraper.divisorOfCPUs v else v in
  let recorded :=
    loadscraper.RecordSystemCPULoadAverage15mDataPoint now (loadscraper.Load15 v')
      (loadscraper.RecordSystemCPULoadAverage5mDataPoint now (loadscraper.Load5 v')
         (loadscraper.RecordSystemCPULoadAverage1mDataPoint now
            (loadscraper.Load1 v') mb0)) in
  let s' := snd (fst (loadscraper.scrape s w)) in
  let w' := snd (loadscraper.scrape s w) in
  fst (fst (loadscraper.scrape s w))
  = filtermatcher.Returns (fst (loadscraper.Emit recorded), None)
  /\ loadscraper.mb s' = Some (snd (loadscraper.Emit recorded))
  /\ loadscraper.avgStats w' !! p = Some v'
  /\ (forall q, q <> p ->
                loadscraper.avgStats w' !! q = loadscraper.avgStats w2 !! q)
  /\ loadscraper.env w' = loadscraper.env w2.
Proof.
  intros Hs Hnow Hload Hp Hmb. unfold loadscraper.scrape.
  rewrite Hs, Hnow, Hload. simpl. rewrite Hp. simpl. rewrite Hmb.
  destruct (loadscraper.CPUAverage (loadscraper.config s)); simpl;
    destruct (loadscraper.Emit _) as [metrics mb4]; simpl;
    repeat split; try done.
  - apply lookup_insert_eq.
  - intros q Hq. by apply lookup_insert_ne.
Qed.

Lemma scrape_records_witness :
  fst (fst (loadscraper.scrape (H:=LoadSamples.host) (LoadSamples.started true)
              (LoadSamples.world true)))
  = filtermatcher.Returns
      ([("system.cpu.load_average.1m", 100%Z, 0.5%float);
        ("system.cpu.load_average.5m", 100%Z, 1%float);
        ("system.cpu.load_average.15m", 100%Z, 2%float)], None)
  /\ loadscraper.avgStats
       (snd (loadscraper.scrape (H:=LoadSamples.host) (LoadSamples.started true)
               (LoadSamples.world true))) !! 1%positive
     = Some {| loadscraper.Load1 := 0.5%float;
               loadscraper.Load5 := 1%float;
               loadscraper.Load15 := 2%float |}.
Proof.
  destruct (scrape_records (H:=LoadSamples.host) (LoadSamples.started true)
              (LoadSamples.world true) 100%Z
              {| LoadSamples.countersOk := true; LoadSamples.running := 0;
                 LoadSamples.logged := []; LoadSamples.clock := 101 |}
              1%positive
              {| loadscraper.Load1 := 2%float; loadscraper.Load5 := 4%float;
                 loadscraper.Load15 := 8%float |}
              (loadscraper.set_env (H:=LoadSamples.host) (LoadSamples.world true)
                 {| LoadSamples.countersOk := true; LoadSamples.running := 0;
                    LoadSamples.logged := []; LoadSamples.clock := 101 |})
              ((0%Z, []) : loadscraper.MetricsBuilder (Host:=LoadSamples.host))
              eq_refl eq_refl eq_refl eq_refl eq_refl)
    as (Hout & _ & Hobj & _).
  split; [exact Hout | exact Hobj].
Defined.

(** X8.  With [CPUAverage] set, each [scrape] divides the object behind
    the pointer in place: when [s.load] hands out the same object again
    without refreshing it, [n] scrapes leave it divided [n] times by the
    number of CPUs, and every one of them returns metrics without error. *)
Theorem scrapes_divide_in_place {H : loadscraper.Host} p n s w v :
  loadscraper.CPUAverage (loadscraper.config s) = true ->
  loadscraper.skipScrape s = false ->
  is_Some (loadscraper.mb s) ->
  (forall w0, loadscraper.load s w0 = ((Some p, None), w0)) ->
  loadscraper.avgStats w !! p = Some v ->
  loadscraper.avgStats (snd (loadscraper.scrapes n s w)) !! p
  = Some (Nat.iter n (loadscraper.divideBy loadscraper.divisorOfCPUs) v)
  /\ Forall (fun o => exists m, o = filtermatcher.Returns (m, None))
            (fst (fst (loadscraper.scrapes n s w))).
Proof.
  revert s w v.
  induction n as [|n IH]; intros s w v Hcpu Hs [mb0 Hmb] Hload Hp.
  - simpl. by split.
  - destruct (loadscraper.time_Now (loadscraper.env w)) as [now e1] eqn:Hnow.
    assert (loadscraper.avgStats (loadscraper.set_env w e1) !! p = Some v)
      as Hp2 by exact Hp.
    pose proof (scrape_records s w now e1 p v _ mb0 Hs Hnow (Hload _) Hp2 Hmb)
      as (Hout & Hmb' & Hobj & _).
    pose proof (scrape_preserves s w)
      as (_ & Hcfg & Hskip & _ & Hld & _).
    rewrite Hcpu in Hobj. simpl.
    destruct (loadscraper.scrape s w) as [[o s1] w1]. simpl in *. subst o.
    assert (loadscraper.CPUAverage (loadscraper.config s1) = true) as Hcpu1
      by (by rewrite Hcfg).
    assert (loadscraper.skipScrape s1 = false) as Hs1 by (by rewrite Hskip).
    assert (is_Some (loadscraper.mb s1)) as Hmb1 by (by rewrite Hmb').
    assert (forall w0, loadscraper.load s1 w0 = ((Some p, None), w0)) as Hld1
      by (intros w0; by rewrite Hld).
    destruct (IH s1 w1 _ Hcpu1 Hs1 Hmb1 Hld1 Hobj) as [IH1 IH2].
    destruct (loadscraper.scrapes n s1 w1) as [[os s2] w2]. simpl in *.
    split.
    + rewrite IH1. f_equal. symmetry. exact (Nat.iter_succ_r n _ v).
    + constructor; [by eexists | exact IH2].
Qed.

Lemma scrapes_divide_in_place_witness :
  loadscraper.avgStats
    (snd (loadscraper.scrapes (H:=LoadSamples.host) 2 (LoadSamples.started true)
            (LoadSamples.world true))) !! 1%positive
  = Some (Nat.iter 2
            (loadscraper.divideBy
               (loadscraper.divisorOfCPUs (H:=LoadSamples.host)))
            {| loadscraper.Load1 := 2%float; loadscraper.Load5 := 4%float;
               loadscraper.Load15 := 8%float |})
  /\ Nat.iter 2
       (loadscraper.divideBy (loadscraper.divisorOfCPUs (H:=LoadSamples.host)))
       {| loadscraper.Load1 := 2%float; loadscraper.Load5 := 4%float;
          loadscraper.Load15 := 8%float |}
     = {| loadscraper.Load1 := 0.125%float; loadscraper.Load5 := 0.25%float;
          loadscraper.Load15 := 0.5%float |}.
Proof.
  split; [|vm_compute; reflexivity].
  apply (scrapes_divide_in_place (H:=LoadSamples.host) 1%positive 2
           (LoadSamples.started true) (LoadSamples.world true)).
  - reflexivity.
  - reflexivity.
  - by eexists.
  - intros w0. reflexivity.
  - reflexivity.
Defined.

(* ===================================================================== *)
(** ** More on [NewMatcher] and [Match] *)
(* ===================================================================== *)

Section MoreConstruction.
Context {E : regexp.Engine}.

Lemma newLibraryMatchers_skip config pre rest : forall lm,
  Forall (compiles config) pre ->
  exists lm',
    filtermatcher.newLibraryMatchers config (pre ++ rest) lm
    = filtermatcher.newLibraryMatchers config rest lm'.
Proof.
  induction pre as [|l pre IH]; intros lm Hpre; [by exists lm|].
  apply Forall_cons in Hpre as [[Hn Hv] Hpre]. simpl. run_result.
  destruct (filterset.CreateFilterSet [filterconfig.Name l] config)
    as [n|]; [|discriminate].
  destruct (filterconfig.Version l) as [v|]; simpl.
  - specialize (Hv v eq_refl).
    destruct (filterset.CreateFilterSet [v] config) as [f|]; [|discriminate].
    simpl. by apply IH.
  - by apply IH.
Qed.

Lemma newLibraryMatchers_all config libs : forall lm,
  Forall (compiles config) libs ->
  exists lm', filtermatcher.newLibraryMatchers config libs lm = OK lm'.
Proof.
  intros lm Hall.
  destruct (newLibraryMatchers_skip config libs [] lm Hall) as [lm' Hlm].
  rewrite app_nil_r in Hlm. by exists lm'.
Qed.

End MoreConstruction.

(** X9.  A matcher that [NewMatcher] returns without error has one library
    matcher per configured library, in the configured order, each holding
    the filters compiled from that library; its attributes matcher is nil
    exactly when no attribute is configured and is otherwise the one built
    from the configured attributes, and the same holds for resources. *)
Theorem NewMatcher_success_shape {E : regexp.Engine} mp m :
  filtermatcher.NewMatcher mp = (m, None) ->
  List.length (filtermatcher.libraries m)
  = List.length (filterconfig.Libraries mp)
  /\ Forall2 (compiledFrom (filterconfig.Config mp))
             (filterconfig.Libraries mp) (filtermatcher.libraries m)
  /\ (filtermatcher.attributes m = None <-> filterconfig.Attributes mp = [])
  /\ (filtermatcher.resources m = None <-> filterconfig.Resources mp = [])
  /\ (forall am, filtermatcher.attributes m = Some am ->
                 filtermatcher.NewAttributesMatcher (filterconfig.Config mp)
                   (filterconfig.Attributes mp) = OK am)
  /\ (forall rm, filtermatcher.resources m = Some rm ->
                 filtermatcher.NewAttributesMatcher (filterconfig.Config mp)
                   (filterconfig.Resources mp) = OK rm).
Proof.
  intros Hnew. apply NewMatcher_OK in Hnew as (Hlibs & Ha & Hr).
  unfold builtFrom in Ha, Hr.
  split; [symmetry; by eapply Forall2_length|]. split; [exact Hlibs|].
  destruct (filterconfig.Attributes mp) as [|a0 ats];
    destruct (filterconfig.Resources mp) as [|r0 rs];
    repeat match goal with
      | H : exists _, _ |- _ => destruct H as (? & ? & ?)
      end;
    repeat split; try congruence.
Qed.

Lemma NewMatcher_success_shape_witness :
  List.length
    (filtermatcher.libraries
       (fst (filtermatcher.NewMatcher (E:=MiniRE2.engine) Samples.guarana)))
  = List.length (filterconfig.Libraries Samples.guarana)
  /\ (filtermatcher.attributes
        (fst (filtermatcher.NewMatcher (E:=MiniRE2.engine) Samples.guarana)) = None
      <-> filterconfig.Attributes Samples.guarana = []).
Proof.
  destruct (NewMatcher_success_shape (E:=MiniRE2.engine) Samples.guarana
              (fst (filtermatcher.NewMatcher (E:=MiniRE2.engine) Samples.guarana))
              eq_refl) as (Hlen & _ & Hattr & _).
  split; [exact Hlen | exact Hattr].
Defined.

(** X10.  [NewMatcher] reports the first failure in the order in which it
    compiles: the libraries in configured order, the name of a library
    before its version, then the attributes, then the resources.  What
    comes after the failing pattern is not looked at. *)
Theorem NewMatcher_first_error {E : regexp.Engine} mp :
  (forall pre library post cause,
      filterconfig.Libraries mp = pre ++ library :: post ->
      Forall (compiles (filterconfig.Config mp)) pre ->
      filterset.CreateFilterSet [filterconfig.Name library] (filterconfig.Config mp)
      = Err cause ->
      filtermatcher.NewMatcher mp
      = (filtermatcher.zeroPropertiesMatcher,
         Some (ErrWrap "error creating library name filters" cause)))
  /\ (forall pre library post v cause,
         filterconfig.Libraries mp = pre ++ library :: post ->
         Forall (compiles (filterconfig.Config mp)) pre ->
         is_err (filterset.CreateFilterSet [filterconfig.Name library]
                   (filterconfig.Config mp)) = false ->
         filterconfig.Version library = Some v ->
         filterset.CreateFilterSet [v] (filterconfig.Config mp) = Err cause ->
         filtermatcher.NewMatcher mp
         = (filtermatcher.zeroPropertiesMatcher,
            Some (ErrWrap "error creating library version filters" cause)))
  /\ (forall cause,
         Forall (compiles (filterconfig.Config mp)) (filterconfig.Libraries mp) ->
         filterconfig.Attributes mp <> [] ->
         filtermatcher.NewAttributesMatcher (filterconfig.Config mp)
           (filterconfig.Attributes mp) = Err cause ->
         filtermatcher.NewMatcher mp
         = (filtermatcher.zeroPropertiesMatcher,
            Some (ErrWrap "error creating attribute filters" cause)))
  /\ (forall cause,
         Forall (compiles (filterconfig.Config mp)) (filterconfig.Libraries mp) ->
         filterconfig.Attributes mp = []
         \/ is_err (filtermatcher.NewAttributesMatcher (filterconfig.Config mp)
                      (filterconfig.Attributes mp)) = false ->
         filterconfig.Resources mp <> [] ->
         filtermatcher.NewAttributesMatcher (filterconfig.Config mp)
           (filterconfig.Resources mp) = Err cause ->
         filtermatcher.NewMatcher mp
         = (filtermatcher.zeroPropertiesMatcher,
            Some (ErrWrap "error creating resource filters" cause))).
Proof.
  split; [|split; [|split]].
  - intros pre library post cause Hlibs Hpre Hname.
    unfold filtermatcher.NewMatcher. rewrite Hlibs.
    destruct (newLibraryMatchers_skip _ pre (library :: post) [] Hpre)
      as [lm' ->].
    simpl. run_result. by rewrite Hname.
  - intros pre library post v cause Hlibs Hpre Hname Hv Hver.
    unfold filtermatcher.NewMatcher. rewrite Hlibs.
    destruct (newLibraryMatchers_skip _ pre (library :: post) [] Hpre)
      as [lm' ->].
    simpl. run_result.
    destruct (filterset.CreateFilterSet [filterconfig.Name library] _);
      [|discriminate].
    rewrite Hv. simpl. by rewrite Hver.
  - intros cause Hall Hne Hattr.
    unfold filtermatcher.NewMatcher.
    destruct (newLibraryMatchers_all _ _ [] Hall) as [lm' ->].
    run_result.
    destruct (filterconfig.Attributes mp) as [|a0 ats] eqn:Ha; [done|].
    change (Nat.ltb 0 (List.length (a0 :: ats))) with true.
    cbv iota. by rewrite Hattr.
  - intros cause Hall Hattr Hne Hres.
    unfold filtermatcher.NewMatcher.
    destruct (newLibraryMatchers_all _ _ [] Hall) as [lm' ->].
    run_result.
    destruct (filterconfig.Resources mp) as [|r0 rs] eqn:Hr; [done|].
    change (Nat.ltb 0 (List.length (r0 :: rs))) with true.
    destruct (filterconfig.Attributes mp) as [|a0 ats] eqn:Ha.
    + change (Nat.ltb 0 (List.length (@nil filterconfig.Attribute))) with false.
      cbv iota. by rewrite Hres.
    + destruct Hattr as [Hattr|Hattr]; [done|].
      change (Nat.ltb 0 (List.length (a0 :: ats))) with true.
      cbv iota.
      destruct (filtermatcher.NewAttributesMatcher _ (a0 :: ats));
        [|discriminate].
      by rewrite Hres.
Qed.

Lemma NewMatcher_first_error_witness :
  filtermatcher.NewMatcher (E:=MiniRE2.engine) MoreSamples.secondLibraryBad
  = (filtermatcher.zeroPropertiesMatcher,
     Some (ErrWrap "error creating library name filters"
             (CompilationError "([" (ErrNew "error parsing regexp: ([")))).
Proof.
  apply (proj1 (NewMatcher_first_error (E:=MiniRE2.engine)
                  MoreSamples.secondLibraryBad)
           [{| filterconfig.Name := "lib-a"; filterconfig.Version := Some "^1\." |}]
           {| filterconfig.Name := "(["; filterconfig.Version := Some "(" |}
           []).
  - reflexivity.
  - constructor; [|constructor].
    split; [reflexivity|]. intros v Hv. injection Hv as <-. reflexivity.
  - reflexivity.
Defined.

Section MoreMatch.
Context {E : regexp.Engine}.

Lemma rangeLibraries_panics ms s :
  fst (filtermatcher.rangeLibraries ms s) = filtermatcher.Panics
  <-> exists pre x post,
        ms = pre ++ x :: post
        /\ filtermatcher.Name x = None
        /\ forallb (libraryAccepts (filtermatcher.st_library s)) pre = true.
Proof.
  induction ms as [|matcher rest IH].
  - simpl. split; [discriminate|]. intros (pre & x & post & Hms & _).
    by destruct pre.
  - rewrite rangeLibraries_cons.
    destruct (filtermatcher.Name matcher) as [n|] eqn:Hn.
    + assert (forall pre x post,
                 matcher :: rest = pre ++ x :: post ->
                 filtermatcher.Name x = None ->
                 forallb (libraryAccepts (filtermatcher.st_library s)) pre = true ->
                 exists pre', pre = matcher :: pre' /\ rest = pre' ++ x :: post
                   /\ libraryAccepts (filtermatcher.st_library s) matcher = true
                   /\ forallb (libraryAccepts (filtermatcher.st_library s)) pre'
                      = true) as Hinv.
      { intros [|y pre'] x post Hms Hx Hpre; simpl in Hms.
        - injection Hms as <- _. congruence.
        - injection Hms as <- ->. simpl in Hpre.
          apply andb_prop in Hpre as [Hy Hpre']. by exists pre'. }
      assert (libraryAccepts (filtermatcher.st_library s) matcher
              = filterset.Matches n (pcommon.Name (filtermatcher.st_library s))
                && match filtermatcher.Version matcher with
                   | None => true
                   | Some v =>
                       filterset.Matches v
                         (pcommon.Version (filtermatcher.st_library s))
                   end) as Hacc by (unfold libraryAccepts; by rewrite Hn).
      destruct (filterset.Matches n _) eqn:Hm; simpl in Hacc.
      * destruct (filtermatcher.Version matcher) as [v|].
        -- destruct (filterset.Matches v _) eqn:Hmv.
           ++ rewrite IH. split.
              ** intros (pre & x & post & -> & Hx & Hpre).
                 exists (matcher :: pre), x, post. simpl.
                 by rewrite Hacc, Hpre.
              ** intros (pre & x & post & Hms & Hx & Hpre).
                 destruct (Hinv _ _ _ Hms Hx Hpre) as (pre' & -> & -> & _ & Hp).
                 by exists pre', x, post.
           ++ simpl. split; [discriminate|].
              intros (pre & x & post & Hms & Hx & Hpre).
              destruct (Hinv _ _ _ Hms Hx Hpre) as (pre' & _ & _ & Ha & _).
              congruence.
        -- rewrite IH. split.
           ++ intros (pre & x & post & -> & Hx & Hpre).
              exists (matcher :: pre), x, post. simpl.
              by rewrite Hacc, Hpre.
           ++ intros (pre & x & post & Hms & Hx & Hpre).
              destruct (Hinv _ _ _ Hms Hx Hpre) as (pre' & -> & -> & _ & Hp).
              by exists pre', x, post.
      * simpl. split; [discriminate|].
        intros (pre & x & post & Hms & Hx & Hpre).
        destruct (Hinv _ _ _ Hms Hx Hpre) as (pre' & _ & _ & Ha & _).
        congruence.
    + simpl. split; [|done]. intros _. by exists [], matcher, rest.
Qed.

(** The loop looks at the scope's version only through version filters. *)
Lemma rangeLibraries_no_version ms s s' :
  Forall (fun x => filtermatcher.Version x = None) ms ->
  pcommon.Name (filtermatcher.st_library s)
  = pcommon.Name (filtermatcher.st_library s') ->
  fst (filtermatcher.rangeLibraries ms s) = fst (filtermatcher.rangeLibraries ms s').
Proof.
  intros Hall Hname. induction Hall as [|matcher rest Hv _ IH]; [reflexivity|].
  rewrite !rangeLibraries_cons, Hv, Hname.
  destruct (filtermatcher.Name matcher) as [n|]; [|reflexivity].
  by destruct (filterset.Matches n _).
Qed.

End MoreMatch.

(** X11.  For matchers whose name filters are all present, the outcome of
    [Match] depends on the library matchers only as a set: dropping,
    repeating or reordering entries of a list that accepts gives a list
    that accepts, and two lists with the same entries give the same
    outcome. *)
Theorem Match_depends_on_library_set {E : regexp.Engine}
    m ms ms' attrs resource library :
  namesPresent ms ->
  namesPresent ms' ->
  ((forall x, x ∈ ms' -> x ∈ ms) ->
   filtermatcher.callMatch (withLibraries m ms) attrs resource library
   = filtermatcher.Returns true ->
   filtermatcher.callMatch (withLibraries m ms') attrs resource library
   = filtermatcher.Returns true)
  /\ ((forall x, x ∈ ms' <-> x ∈ ms) ->
      filtermatcher.callMatch (withLibraries m ms') attrs resource library
      = filtermatcher.callMatch (withLibraries m ms) attrs resource library).
Proof.
  intros Hp Hp'.
  rewrite !callMatch_present by assumption. unfold withLibraries, resourcesAccept.
  proj_simpl.
  assert (forall l1 l2 : list filtermatcher.instrumentationLibraryMatcher,
             (forall x, x ∈ l1 -> x ∈ l2) ->
             forallb (libraryAccepts library) l2 = true ->
             forallb (libraryAccepts library) l1 = true) as Hsub.
  { intros l1 l2 Hin Hall. apply forallb_forall. intros x Hx.
    apply (proj1 (forallb_forall _ l2) Hall).
    by apply list_elem_of_In, Hin, list_elem_of_In. }
  split.
  - intros Hin [= Hall].
    apply andb_prop in Hall as [Hall Ha]. apply andb_prop in Hall as [Hall Hr].
    by rewrite (Hsub _ _ Hin Hall), Hr, Ha.
  - intros Hin. do 3 f_equal.
    destruct (forallb (libraryAccepts library) ms) eqn:Hms.
    + apply (Hsub ms' ms); [|exact Hms]. intros x. apply Hin.
    + destruct (forallb (libraryAccepts library) ms') eqn:Hms'; [|reflexivity].
      rewrite <- Hms. symmetry.
      apply (Hsub ms ms'); [|exact Hms']. intros x. apply Hin.
Qed.

Lemma Match_depends_on_library_set_witness :
  filtermatcher.callMatch
    (withLibraries
       (fst (filtermatcher.NewMatcher (E:=MiniRE2.engine) MoreSamples.twoNames))
       (rev (filtermatcher.libraries
               (fst (filtermatcher.NewMatcher (E:=MiniRE2.engine)
                       MoreSamples.twoNames)))))
    ∅ Samples.emptyResource Samples.scopeA
  = filtermatcher.Returns true.
Proof.
  apply (proj1 (Match_depends_on_library_set (E:=MiniRE2.engine)
                  (fst (filtermatcher.NewMatcher (E:=MiniRE2.engine)
                          MoreSamples.twoNames))
                  (filtermatcher.libraries
                     (fst (filtermatcher.NewMatcher (E:=MiniRE2.engine)
                             MoreSamples.twoNames)))
                  (rev (filtermatcher.libraries
                          (fst (filtermatcher.NewMatcher (E:=MiniRE2.engine)
                                  MoreSamples.twoNames))))
                  ∅ Samples.emptyResource Samples.scopeA
                  ltac:(repeat constructor; by eexists)
                  ltac:(repeat constructor; by eexists))).
  - intros x Hx. apply list_elem_of_In in Hx. apply list_elem_of_In.
    simpl in *. tauto.
  - vm_compute. reflexivity.
Defined.

(** X12.  [Match] panics exactly when its loop reaches a library matcher
    whose name filter is nil, that is, when every matcher before it accepts
    the scope; a nil name filter behind a matcher that rejects is never
    used, and no other part of [Match] panics. *)
Theorem Match_panics_iff {E : regexp.Engine} m attrs resource library :
  filtermatcher.callMatch m attrs resource library = filtermatcher.Panics
  <-> exists pre x post,
        filtermatcher.libraries m = pre ++ x :: post
        /\ filtermatcher.Name x = None
        /\ forallb (libraryAccepts library) pre = true.
Proof.
  rewrite <- (rangeLibraries_panics (filtermatcher.libraries m)
                {| filtermatcher.st_mp := m;
                   filtermatcher.st_attributes := attrs;
                   filtermatcher.st_resource := resource;
                   filtermatcher.st_library := library |}).
  unfold filtermatcher.callMatch. rewrite Match_after_loop. proj_simpl.
  destruct (filtermatcher.rangeLibraries _ _) as [[[b|]|] s']; simpl;
    try done.
  by destruct (resourcesAccept _ _).
Qed.

(** X13.  What is not constrained is not consulted.  A matcher built from
    libraries that configure no version gives the same outcome for two
    scopes of the same name, whatever their versions; a matcher built with
    no resource constraint gives the same outcome for any two resources. *)
Theorem unconstrained_inputs_are_ignored {E : regexp.Engine} mp m :
  filtermatcher.NewMatcher mp = (m, None) ->
  (Forall (fun l => filterconfig.Version l = None) (filterconfig.Libraries mp) ->
   forall attrs resource name v1 v2,
     filtermatcher.callMatch m attrs resource
       {| pcommon.Name := name; pcommon.Version := v1 |}
     = filtermatcher.callMatch m attrs resource
         {| pcommon.Name := name; pcommon.Version := v2 |})
  /\ (filterconfig.Resources mp = [] ->
      forall attrs r1 r2 library,
        filtermatcher.callMatch m attrs r1 library
        = filtermatcher.callMatch m attrs r2 library).
Proof.
  intros Hnew. pose proof (NewMatcher_namesPresent _ _ Hnew) as Hp.
  apply NewMatcher_OK in Hnew as (Hlibs & _ & Hr). split.
  - intros Hnone attrs resource name v1 v2.
    assert (Forall (fun x => filtermatcher.Version x = None)
              (filtermatcher.libraries m)) as Hnone'.
    { clear Hp Hr. induction Hlibs as [|l mt ls ms [_ Hv] _ IH];
        [constructor|].
      apply Forall_cons in Hnone as [Hl Hnone].
      rewrite Hl in Hv. constructor; [exact Hv | by apply IH]. }
    unfold filtermatcher.callMatch. rewrite !Match_after_loop. proj_simpl.
    match goal with
    | |- context [filtermatcher.rangeLibraries ?ms ?s1] =>
        match goal with
        | |- context [filtermatcher.rangeLibraries ms ?s2] =>
            tryif constr_eq s1 s2 then fail else
              rewrite (rangeLibraries_pair ms s1), (rangeLibraries_pair ms s2),
                (rangeLibraries_no_version ms s1 s2 Hnone' eq_refl);
              generalize (fst (filtermatcher.rangeLibraries ms s2)); intros o
        end
    end.
    destruct o as [[b|]|]; try reflexivity.
    unfold resourcesAccept; proj_simpl.
    destruct (filtermatcher.resources m);
      [destruct (filtermatcher.AttributesMatcher_Match _ _)|]; reflexivity.
  - intros Hres attrs r1 r2 library. rewrite Hres in Hr. simpl in Hr.
    rewrite !callMatch_present by exact Hp.
    unfold resourcesAccept. by rewrite Hr.
Qed.

Lemma unconstrained_inputs_are_ignored_witness :
  filtermatcher.callMatch
    (fst (filtermatcher.NewMatcher (E:=MiniRE2.engine) MoreSamples.twoNames))
    ∅ Samples.emptyResource
    {| pcommon.Name := "lib-a"; pcommon.Version := "1.2.3" |}
  = filtermatcher.callMatch
      (fst (filtermatcher.NewMatcher (E:=MiniRE2.engine) MoreSamples.twoNames))
      ∅ Samples.emptyResource
      {| pcommon.Name := "lib-a"; pcommon.Version := EmptyString |}.
Proof.
  apply (proj1 (unconstrained_inputs_are_ignored (E:=MiniRE2.engine)
                  MoreSamples.twoNames
                  (fst (filtermatcher.NewMatcher (E:=MiniRE2.engine)
                          MoreSamples.twoNames)) eq_refl)).
  repeat constructor.
Defined.

(* ===================================================================== *)
(** ** More on [IsMatch] *)
(* ===================================================================== *)

(** X14.  The function that [IsMatch] returns never returns a value
    together with an error: for every context it returns either nil and
    the error of [target.Get], or a boolean and no error; in particular it
    returns no error when [target.Get] returns none. *)
Theorem IsMatch_result_shape {E : regexp.Engine} {Other K : Type}
    (target : ottl.Getter Other K) (pattern : string) f ctx :
  ottlfuncs.IsMatch target pattern = (Some f, None) ->
  (exists err, snd (target ctx) = Some err /\ f ctx = (None, Some err))
  \/ (exists b, snd (target ctx) = None /\ f ctx = (Some (ottl.DBool b), None)).
Proof.
  unfold ottlfuncs.IsMatch.
  destruct (regexp.Compile pattern) as [re|]; [|discriminate].
  intros [= <-]. unfold ottlfuncs.isMatchFunc.
  destruct (target ctx) as [val [err|]]; simpl.
  - left. by exists err.
  - right. destruct val as [[valStr|b|o]|]; by eexists.
Qed.

Lemma IsMatch_result_shape_witness :
  exists f,
    ottlfuncs.IsMatch (E:=MiniRE2.engine) Samples.getter "^abc" = (Some f, None)
    /\ ((exists err, snd (Samples.getter 2) = Some err /\ f 2 = (None, Some err))
        \/ (exists b, snd (Samples.getter 2) = None
                      /\ f 2 = (Some (ottl.DBool b), None))).
Proof.
  eexists. split; [reflexivity|].
  apply (IsMatch_result_shape (E:=MiniRE2.engine) Samples.getter "^abc").
  reflexivity.
Defined.
